(** * The Vertex client adapter of the Anthropic Python SDK

    A shallow embedding of [src/anthropic/lib/vertex/_client.py]:

    - [Json]: the Python values a request body is made of;
    - [Store]: the object store in which request options and their bodies
      live, with the state-and-exception monad the rewriter runs in;
    - [Rewrite]: the module-level function [_prepare_options];
    - [Status]: [BaseVertexClient._make_status_error];
    - [Auth]: [AnthropicVertex.__init__] and [_ensure_access_token], as
      trees of calls to the environment, the credential loader and the
      credential refresher;
    - [Client]: the methods [_prepare_options], [_prepare_request] and
      [copy] of the client. *)

From stdpp Require Import gmap strings list fin_maps.
From Stdlib Require Import ZArith Lia.

Set Warnings "-register-all".
Local Open Scope string_scope.

(** ** Python values *)

Module Json.

(** A request body is typed [object] in the SDK.  A [dict] is a finite map
    from string keys (Python compares dicts regardless of insertion order,
    and so does [gmap]); a finite [float] is [m * 2^e]. *)
Inductive json : Type :=
  | JNone
  | JBool (b : bool)
  | JInt (z : Z)
  | JFloat (m e : Z)
  | JStr (s : string)
  | JList (l : list json)
  | JDict (d : gmap string json).

(** [isinstance(obj, dict)], the body of [_utils.is_dict]. *)
Definition is_dict (v : json) : bool :=
  match v with JDict _ => true | _ => false end.

(** Python truth value testing, as used by [if stream]. *)
Definition truthy (v : json) : bool :=
  match v with
  | JNone => false
  | JBool b => b
  | JInt z => negb (z =? 0)%Z
  | JFloat m _ => negb (m =? 0)%Z
  | JStr s => negb (String.eqb s "")
  | JList l => negb (Nat.eqb (length l) 0)
  | JDict d => negb (Nat.eqb (size d) 0)
  end.

(** [format(v, "")], what a replacement field of an f-string inserts: a
    [str] is inserted as it is, any other object through its [__str__],
    which is left to [str_of]. *)
Definition py_format (str_of : json → string) (v : json) : string :=
  match v with
  | JStr s => s
  | _ => str_of v
  end.

(** [x in {a, b, ...}] for strings. *)
Definition str_in (x : string) (xs : list string) : bool :=
  existsb (String.eqb x) xs.

End Json.

(** ** The object store *)

Module Store.
Import Json.

Definition loc := nat.

(** The fields of [FinalRequestOptions] that the adapter reads or writes.
    [json_data] is a reference: the body is an object of its own, shared by
    every options object that points to it. *)
Record FinalRequestOptions : Type := mkOptions {
  method : string;
  url : string;
  json_data : loc;
}.

Record heap : Type := mkHeap {
  options_objs : list FinalRequestOptions;
  body_objs : list json;
}.

Inductive exn : Type :=
  | RuntimeError (msg : string)
  | AnthropicError (msg : string)
  | ValueError (msg : string)
  | KeyError (key : string)
  | AttributeError (name : string).

(** The result of running a piece of code on a store: it returns, it
    raises, or it dereferences a location that holds no object ([Stuck],
    which no Python program does). *)
Inductive outcome (A : Type) : Type :=
  | Returns (a : A) (h : heap)
  | Raises (e : exn) (h : heap)
  | Stuck.
Arguments Returns {A} a h.
Arguments Raises {A} e h.
Arguments Stuck {A}.

Definition M (A : Type) : Type := heap → outcome A.

Definition ret {A} (a : A) : M A := λ h, Returns a h.

Definition bind {A B} (m : M A) (k : A → M B) : M B :=
  λ h, match m h with
       | Returns a h' => k a h'
       | Raises e h' => Raises e h'
       | Stuck => Stuck
       end.

Definition raise {A} (e : exn) : M A := λ h, Raises e h.

#[global] Instance M_ret : MRet M := @ret.
#[global] Instance M_bind : MBind M := λ A B k m, bind m k.

Definition get_options (o : loc) : M FinalRequestOptions :=
  λ h, match options_objs h !! o with
       | Some opts => Returns opts h
       | None => Stuck
       end.

Definition get_body (b : loc) : M json :=
  λ h, match body_objs h !! b with
       | Some v => Returns v h
       | None => Stuck
       end.

Definition set_body (b : loc) (v : json) : M unit :=
  λ h, match body_objs h !! b with
       | Some _ => Returns tt (mkHeap (options_objs h) (<[b := v]> (body_objs h)))
       | None => Stuck
       end.

(** [options.url = u] *)
Definition set_url (o : loc) (u : string) : M unit :=
  λ h, match options_objs h !! o with
       | Some opts =>
           Returns tt (mkHeap (<[o := mkOptions (method opts) u (json_data opts)]> (options_objs h))
                              (body_objs h))
       | None => Stuck
       end.

Definition new_body (v : json) : M loc :=
  λ h, Returns (length (body_objs h)) (mkHeap (options_objs h) (body_objs h ++ [v])).

Definition new_options (opts : FinalRequestOptions) : M loc :=
  λ h, Returns (length (options_objs h)) (mkHeap (options_objs h ++ [opts]) (body_objs h)).

(** Modelled from the spec: [_compat.model_copy], which is not part of the
    sources at hand.  With [deep=True] the copy is "a deep copy of the
    input": a new options object whose body is a new object holding an equal
    value.  With [deep=False] only the options object is new and the body
    stays shared with the original. *)
Definition model_copy (o : loc) (deep : bool) : M loc :=
  opts ← get_options o;
  if deep then
    v ← get_body (json_data opts);
    b ← new_body v;
    new_options (mkOptions (method opts) (url opts) b)
  else
    new_options opts.

(** [d.setdefault(key, dflt)] on the dict at [b]. *)
Definition dict_setdefault (b : loc) (key : string) (dflt : json) : M json :=
  v ← get_body b;
  match v with
  | JDict d =>
      match d !! key with
      | Some x => ret x
      | None => set_body b (JDict (<[key := dflt]> d));; ret dflt
      end
  | _ => raise (AttributeError "setdefault")
  end.

(** [d.pop(key)] on the dict at [b]: [KeyError] when the key is missing. *)
Definition dict_pop (b : loc) (key : string) : M json :=
  v ← get_body b;
  match v with
  | JDict d =>
      match d !! key with
      | Some x => set_body b (JDict (delete key d));; ret x
      | None => raise (KeyError key)
      end
  | _ => raise (AttributeError "pop")
  end.

(** [d.get(key, dflt)] on the dict at [b]. *)
Definition dict_get (b : loc) (key : string) (dflt : json) : M json :=
  v ← get_body b;
  match v with
  | JDict d => ret (default dflt (d !! key))
  | _ => raise (AttributeError "get")
  end.

(** What a holder of the reference [r] sees: method, URL and body. *)
Definition request_at (h : heap) (r : loc) : option (string * string * json) :=
  match options_objs h !! r with
  | Some o =>
      match body_objs h !! json_data o with
      | Some v => Some (method o, url o, v)
      | None => None
      end
  | None => None
  end.

End Store.

(** ** The request rewriter *)

Module Rewrite.
Import Json Store.

Definition DEFAULT_VERSION : string := "vertex-2023-10-16".

Definition NO_PROJECT_ID : string :=
  "No project_id was given and it could not be resolved from credentials. The client should be instantiated with the `project_id` argument or the `ANTHROPIC_VERTEX_PROJECT_ID` environment variable should be set.".

Definition NOT_A_DICT : string :=
  "Expected json data to be a dictionary for post /v1/messages".

Definition NO_BATCH_API : string :=
  "The Batch API is not supported in the Vertex client yet".

Definition MESSAGES_URLS : list string :=
  ["/v1/messages"; "/v1/messages?beta=true"].

Definition COUNT_TOKENS_URLS : list string :=
  ["/v1/messages/count_tokens"; "/v1/messages/count_tokens?beta=true"].

Definition BATCHES_PREFIX : string := "/v1/messages/batches".

(** The two f-strings of [_prepare_options]. *)
Definition model_url (project_id region model specifier : string) : string :=
  "/projects/" +:+ project_id +:+ "/locations/" +:+ region
    +:+ "/publishers/anthropic/models/" +:+ model +:+ ":" +:+ specifier.

Definition count_tokens_url (project_id region : string) : string :=
  "/projects/" +:+ project_id +:+ "/locations/" +:+ region
    +:+ "/publishers/anthropic/models/count-tokens:rawPredict".

Section Prepare.

(** [str(v)] for the objects that are not strings; it is only consulted
    when the [model] field of a body is not a string. *)
Variable str_of : json → string.

(** The module-level [_prepare_options]: [input_options] is a reference
    to the caller's object, the result a reference to the rewritten copy. *)
Definition _prepare_options (input_options : loc)
    (project_id : option string) (region : string) : M loc :=
  options ← model_copy input_options true;

  o ← get_options options;
  data ← get_body (json_data o);
  (if is_dict data
   then dict_setdefault (json_data o) "anthropic_version" (JStr DEFAULT_VERSION);; ret tt
   else ret tt);;

  o ← get_options options;
  (if str_in (url o) MESSAGES_URLS && String.eqb (method o) "post" then
     match project_id with
     | None => raise (RuntimeError NO_PROJECT_ID)
     | Some pid =>
         data ← get_body (json_data o);
         if negb (is_dict data) then raise (RuntimeError NOT_A_DICT)
         else
           model ← dict_pop (json_data o) "model";
           stream ← dict_get (json_data o) "stream" (JBool false);
           let specifier := if truthy stream then "streamRawPredict" else "rawPredict" in
           set_url options (model_url pid region (py_format str_of model) specifier)
     end
   else ret tt);;

  o ← get_options options;
  (if str_in (url o) COUNT_TOKENS_URLS && String.eqb (method o) "post" then
     match project_id with
     | None => raise (RuntimeError NO_PROJECT_ID)
     | Some pid => set_url options (count_tokens_url pid region)
     end
   else ret tt);;

  o ← get_options options;
  if String.prefix BATCHES_PREFIX (url o)
  then raise (AnthropicError NO_BATCH_API)
  else ret options.

End Prepare.

(** What [setdefault("anthropic_version", DEFAULT_VERSION)] leaves in a
    body: used to state what the rewritten body is. *)
Definition stamped (v : json) : json :=
  match v with
  | JDict d =>
      match d !! "anthropic_version" with
      | Some _ => v
      | None => JDict (<["anthropic_version" := JStr DEFAULT_VERSION]> d)
      end
  | _ => v
  end.

End Rewrite.

(** ** Status errors *)

Module Status.
Import Json.

(** The exception classes of [_exceptions] that [_make_status_error]
    instantiates; [APIStatusError] is their common base class. *)
Inductive error_class : Type :=
  | BadRequestError
  | AuthenticationError
  | PermissionDeniedError
  | NotFoundError
  | ConflictError
  | UnprocessableEntityError
  | RateLimitError
  | ServiceUnavailableError
  | DeadlineExceededError
  | InternalServerError
  | APIStatusError.

(** Of an [httpx.Response] only the status code is read. *)
Record Response : Type := mkResponse {
  status_code : Z;
}.

Record status_error : Type := mkStatusError {
  error_type : error_class;
  message : string;
  response : Response;
  body : json;
}.

(** [BaseVertexClient._make_status_error] *)
Definition _make_status_error (err_msg : string) (body : json)
    (response : Response) : status_error :=
  if (status_code response =? 400)%Z then
    mkStatusError BadRequestError err_msg response body
  else if (status_code response =? 401)%Z then
    mkStatusError AuthenticationError err_msg response body
  else if (status_code response =? 403)%Z then
    mkStatusError PermissionDeniedError err_msg response body
  else if (status_code response =? 404)%Z then
    mkStatusError NotFoundError err_msg response body
  else if (status_code response =? 409)%Z then
    mkStatusError ConflictError err_msg response body
  else if (status_code response =? 422)%Z then
    mkStatusError UnprocessableEntityError err_msg response body
  else if (status_code response =? 429)%Z then
    mkStatusError RateLimitError err_msg response body
  else if (status_code response =? 503)%Z then
    mkStatusError ServiceUnavailableError err_msg response body
  else if (status_code response =? 504)%Z then
    mkStatusError DeadlineExceededError err_msg response body
  else if (status_code response >=? 500)%Z then
    mkStatusError InternalServerError err_msg response body
  else
    mkStatusError APIStatusError err_msg response body.

(** The classification as the specification words it: a table of nine
    codes (invalid-request, authentication, permission, not-found,
    conflict, unprocessable, rate-limited, service-unavailable,
    deadline-exceeded), then "internal" for the other codes from 500
    upwards and the generic status error for the rest. *)
Definition status_table : list (Z * error_class) :=
  [ (400, BadRequestError); (401, AuthenticationError);
    (403, PermissionDeniedError); (404, NotFoundError);
    (409, ConflictError); (422, UnprocessableEntityError);
    (429, RateLimitError); (503, ServiceUnavailableError);
    (504, DeadlineExceededError) ]%Z.

Fixpoint table_lookup (code : Z) (t : list (Z * error_class)) : option error_class :=
  match t with
  | [] => None
  | (c, k) :: t' => if (c =? code)%Z then Some k else table_lookup code t'
  end.

Definition classification (code : Z) : error_class :=
  match table_lookup code status_table with
  | Some k => k
  | None => if (500 <=? code)%Z then InternalServerError else APIStatusError
  end.

End Status.

(** ** Client construction and credential resolution *)

Module Auth.
Import Store.

(** A [google.auth] credentials handle: the two attributes that
    [_ensure_access_token] reads. *)
Record Credentials : Type := mkCredentials {
  expired : bool;
  token : option string;
}.

(** The attributes of an [AnthropicVertex] instance.  [project_id] is a
    cached property: [None] while nothing is cached, [Some v] once it was
    computed or assigned. *)
Record client : Type := mkClient {
  region : string;
  project_id_cache : option (option string);
  access_token : option string;
  credentials : option Credentials;
  base_url : string;
}.

Definition set_project_id (self : client) (v : option string) : client :=
  mkClient (region self) (Some v) (access_token self) (credentials self) (base_url self).

Definition set_credentials (self : client) (c : option Credentials) : client :=
  mkClient (region self) (project_id_cache self) (access_token self) c (base_url self).

(** [bool(s)] for [s : str | None]. *)
Definition str_truthy (s : option string) : bool :=
  match s with
  | Some s => negb (String.eqb s "")
  | None => false
  end.

(** What the loader and the refresher answer.  [load_auth] returns a
    handle and a project id, or raises; [refresh_auth] changes the handle
    in place (the handle's new state is part of the answer) and may raise. *)
Definition load_result : Type := exn + (Credentials * option string).
Definition refresh_result : Type := Credentials * option exn.

(** Code that talks to the process environment and to the two
    collaborators of [_auth]: a tree of calls, each continuing with the
    answer. *)
Inductive prog (A : Type) : Type :=
  | Done (a : A)
  | EnvGet (name : string) (k : option string → prog A)
  | LoadAuth (project_id : option string) (k : load_result → prog A)
  | RefreshAuth (c : Credentials) (k : refresh_result → prog A).
Arguments Done {A} a.
Arguments EnvGet {A} name k.
Arguments LoadAuth {A} project_id k.
Arguments RefreshAuth {A} c k.

Fixpoint prog_bind {A B} (p : prog A) (k : A → prog B) : prog B :=
  match p with
  | Done a => k a
  | EnvGet name f => EnvGet name (λ r, prog_bind (f r) k)
  | LoadAuth pid f => LoadAuth pid (λ r, prog_bind (f r) k)
  | RefreshAuth c f => RefreshAuth c (λ r, prog_bind (f r) k)
  end.

#[global] Instance prog_ret : MRet prog := @Done.
#[global] Instance prog_mbind : MBind prog := λ A B k p, prog_bind p k.

Definition environ_get (name : string) : prog (option string) := EnvGet name Done.
Definition load_auth (project_id : option string) : prog load_result := LoadAuth project_id Done.
Definition refresh_auth (c : Credentials) : prog refresh_result := RefreshAuth c Done.

(** The arguments of [__init__] that the adapter itself looks at; the
    others are handed to [SyncAPIClient.__init__].  [None] stands for
    [NOT_GIVEN] in [arg_region] and [arg_project_id]. *)
Record init_args : Type := mkArgs {
  arg_region : option string;
  arg_project_id : option string;
  arg_access_token : option string;
  arg_credentials : option Credentials;
  arg_base_url : option string;
}.

Definition NO_REGION : string :=
  "No region was given. The client should be instantiated with the `region` argument or the `CLOUD_ML_REGION` environment variable should be set.".

Definition NO_TOKEN : string :=
  "Could not resolve API token from the environment".

Definition default_base_url (region : string) : string :=
  "https://" +:+ (if String.eqb region "global" then "" else region +:+ "-")
    +:+ "aiplatform.googleapis.com/v1".

(** [AnthropicVertex.__init__]: what the adapter itself decides.  The call
    of [super().__init__] and the creation of [Messages(self)] and
    [Beta(self)] belong to the base client and are not modelled; a result
    [inr c] stands for a construction in which they went through. *)
Definition __init__ (args : init_args) : prog (exn + client) :=
  region ← match arg_region args with
           | Some r => mret (Some r)
           | None => environ_get "CLOUD_ML_REGION"
           end;
  match region with
  | None => mret (inl (ValueError NO_REGION))
  | Some region =>
      base_url ← match arg_base_url args with
                 | Some u => mret u
                 | None =>
                     u ← environ_get "ANTHROPIC_VERTEX_BASE_URL";
                     mret (default (default_base_url region) u)
                 end;
      mret (inr {| region := region;
                   project_id_cache :=
                     match arg_project_id args with
                     | Some p => Some (Some p)
                     | None => None
                     end;
                   access_token := arg_access_token args;
                   credentials := arg_credentials args;
                   base_url := base_url |})
  end.

(** Reading [self.project_id]: the cached value, or else the body of the
    property in [BaseVertexClient], whose result is cached. *)
Definition project_id (self : client) : prog (client * option string) :=
  match project_id_cache self with
  | Some v => mret (self, v)
  | None =>
      project_id ← environ_get "ANTHROPIC_VERTEX_PROJECT_ID";
      let v := if str_truthy project_id then project_id else None in
      mret (set_project_id self v, v)
  end.

(** [AnthropicVertex._ensure_access_token]; the body of
    [AsyncAnthropicVertex._ensure_access_token] is the same.  The client
    is threaded through and returned with the token or the exception. *)
Definition _ensure_access_token (self : client) : prog (client * (exn + string)) :=
  match access_token self with
  | Some tok => mret (self, inr tok)
  | None =>
      loaded ←
        match credentials self with
        | Some c => mret (self, inr c)
        | None =>
            '(self, pid) ← project_id self;
            res ← load_auth pid;
            match res with
            | inl e => mret (self, inl e)
            | inr (c, loaded_project_id) =>
                let self := set_credentials self (Some c) in
                '(self, pid) ← project_id self;
                let self :=
                  if negb (str_truthy pid)
                  then set_project_id self loaded_project_id
                  else self in
                mret (self, inr c)
            end
        end;
      match loaded with
      | (self, inl e) => mret (self, inl e)
      | (self, inr c) =>
          refreshed ←
            (if expired c || negb (str_truthy (token c)) then
               '(c', raised) ← refresh_auth c;
               let self := set_credentials self (Some c') in
               match raised with
               | Some e => mret (self, inl e)
               | None => mret (self, inr c')
               end
             else mret (self, inr c));
          match refreshed with
          | (self, inl e) => mret (self, inl e)
          | (self, inr c) =>
              match token c with
              | Some tok =>
                  if negb (String.eqb tok "") then mret (self, inr tok)
                  else mret (self, inl (RuntimeError NO_TOKEN))
              | None => mret (self, inl (RuntimeError NO_TOKEN))
              end
          end
      end
  end.

(** *** Running a program

    A [world] answers the calls; running a program against it yields the
    calls that were made, in order, and the result. *)
Record world : Type := mkWorld {
  environ : string → option string;
  on_load : option string → load_result;
  on_refresh : Credentials → refresh_result;
}.

Inductive event : Type :=
  | EvEnv (name : string)
  | EvLoad (project_id : option string)
  | EvRefresh (c : Credentials).

Fixpoint run {A} (w : world) (p : prog A) : list event * A :=
  match p with
  | Done a => ([], a)
  | EnvGet name k =>
      let '(tr, a) := run w (k (environ w name)) in (EvEnv name :: tr, a)
  | LoadAuth pid k =>
      let '(tr, a) := run w (k (on_load w pid)) in (EvLoad pid :: tr, a)
  | RefreshAuth c k =>
      let '(tr, a) := run w (k (on_refresh w c)) in (EvRefresh c :: tr, a)
  end.

(** A sequence of calls of [_ensure_access_token] on one client, the
    [n]-th against the [n]-th world: the client after the last call, and
    for each call its trace and its result. *)
Fixpoint calls (ws : list world) (self : client)
    : client * list (list event * (exn + string)) :=
  match ws with
  | [] => (self, [])
  | w :: ws' =>
      let '(tr, (self', r)) := run w (_ensure_access_token self) in
      let '(self'', rs) := calls ws' self' in
      (self'', (tr, r) :: rs)
  end.

End Auth.

(** ** Sample inputs *)

Module Examples.
Import Json Store Auth.

(** A [__str__] for the values that are not strings; no sample below has
    such a value as its model. *)
Definition no_str : json → string := λ _, "<object>".

(** A store that holds one request, at reference [0]. *)
Definition one_request (m u : string) (b : json) : heap :=
  mkHeap [mkOptions m u 0] [b].

Definition create_fields : gmap string json :=
  <["model" := JStr "claude-3"]> (<["stream" := JBool false]> ∅).

Definition create_body : json := JDict create_fields.

Definition versioned_body : json :=
  JDict (<["anthropic_version" := JStr "custom"]> ∅).

(** A world with an empty environment, whose loader finds a valid
    handle and the project ["loaded-project"], and whose refresher renews
    the token. *)
Definition gcloud : world :=
  {| environ := λ _, None;
     on_load := λ _, inr (mkCredentials false (Some "ya29.token"), Some "loaded-project");
     on_refresh := λ c, (mkCredentials false (Some "ya29.fresh"), None) |}.

Definition with_project (p : string) : init_args :=
  {| arg_region := Some "us-central1";
     arg_project_id := Some p;
     arg_access_token := None;
     arg_credentials := None;
     arg_base_url := None |}.

Definition with_token (tok : string) : init_args :=
  {| arg_region := Some "us-central1";
     arg_project_id := None;
     arg_access_token := Some tok;
     arg_credentials := Some (mkCredentials true None);
     arg_base_url := None |}.

End Examples.


(** ** The methods of the client *)

Module Client.
Import Json Store Auth.

(** The last lines of [_ensure_access_token]: the token of the handle,
    or the error if it has none. *)
Definition checked (c : Credentials) : exn + string :=
  match token c with
  | Some tok =>
      if negb (String.eqb tok "") then inr tok else inl (RuntimeError NO_TOKEN)
  | None => inl (RuntimeError NO_TOKEN)
  end.

(** [AnthropicVertex._prepare_options]: the module-level function, with
    the client's project id (read through the cached property) and region.
    The rewriting itself is a computation on the store. *)
Definition _prepare_options (str_of : json → string) (self : client) (options : loc)
    : prog (client * M loc) :=
  '(self, pid) ← project_id self;
  mret (self, Rewrite._prepare_options str_of options pid (region self)).

(** *** Request headers

    [httpx.Headers] compares header names regardless of letter case: a
    header is kept under its lower-cased name.  One value per name is
    modelled. *)
Definition lower_ascii (c : Ascii.ascii) : Ascii.ascii :=
  let n := Ascii.nat_of_ascii c in
  if Nat.leb 65 n && Nat.leb n 90 then Ascii.ascii_of_nat (n + 32) else c.

Fixpoint lower (s : string) : string :=
  match s with
  | EmptyString => EmptyString
  | String c s' => String (lower_ascii c) (lower s')
  end.

Record Request : Type := mkRequest {
  headers : gmap string string;
}.

(** [request.headers.get(name)] *)
Definition headers_get (request : Request) (name : string) : option string :=
  headers request !! lower name.

(** [request.headers[name] = value] *)
Definition headers_set (request : Request) (name value : string) : Request :=
  mkRequest (<[lower name := value]> (headers request)).

(** [AnthropicVertex._prepare_request].  The request is changed in place;
    here its new state is returned, with the exception if one was raised. *)
Definition _prepare_request (self : client) (request : Request)
    : prog (client * Request * option exn) :=
  if str_truthy (headers_get request "Authorization") then
    mret (self, request, None)
  else
    '(self, res) ← _ensure_access_token self;
    match res with
    | inl e => mret (self, request, Some e)
    | inr tok => mret (self, headers_set request "Authorization" ("Bearer " +:+ tok), None)
    end.

(** *** [copy] *)

Definition HEADERS_EXCLUSIVE : string :=
  "The `default_headers` and `set_default_headers` arguments are mutually exclusive".

Definition QUERY_EXCLUSIVE : string :=
  "The `default_query` and `set_default_query` arguments are mutually exclusive".

Section Copy.

(** The timeout values and the [httpx] clients are passed around only. *)
Variables Timeout HttpClient : Type.

(** The attributes of the base client that [copy] reads. *)
Record base_attrs : Type := mkBase {
  _custom_headers : gmap string string;
  _custom_query : gmap string json;
  timeout : Timeout;
  max_retries : Z;
  _client : HttpClient;
}.

(** The arguments of [copy]; [None] stands for [NOT_GIVEN] in
    [cp_region], [cp_project_id], [cp_timeout] and [cp_max_retries], and
    for [None] in the others.  [_extra_kwargs] is left at its default. *)
Record copy_args : Type := mkCopyArgs {
  cp_region : option string;
  cp_project_id : option string;
  cp_access_token : option string;
  cp_credentials : option Credentials;
  cp_base_url : option string;
  cp_timeout : option Timeout;
  cp_http_client : option HttpClient;
  cp_max_retries : option Z;
  cp_default_headers : option (gmap string string);
  cp_set_default_headers : option (gmap string string);
  cp_default_query : option (gmap string json);
  cp_set_default_query : option (gmap string json);
}.

(** The keyword arguments with which [copy] calls [self.__class__]. *)
Record ctor_kwargs : Type := mkKwargs {
  kw_adapter : init_args;
  kw_timeout : Timeout;
  kw_http_client : HttpClient;
  kw_max_retries : Z;
  kw_default_headers : gmap string string;
  kw_default_query : gmap string json;
}.

(** [given if given is not None and also_given is not None] *)
Definition both_given {A B} (x : option A) (y : option B) : bool :=
  match x, y with
  | Some _, Some _ => true
  | _, _ => false
  end.

(** [AnthropicVertex.copy] (and its alias [with_options]): the client it
    is called on, which may have cached its project id meanwhile, and the
    exception or the keyword arguments and the new client. *)
Definition copy (self : client) (base : base_attrs) (a : copy_args)
    : prog (client * (exn + (ctor_kwargs * client))) :=
  if both_given (cp_default_headers a) (cp_set_default_headers a) then
    mret (self, inl (ValueError HEADERS_EXCLUSIVE))
  else if both_given (cp_default_query a) (cp_set_default_query a) then
    mret (self, inl (ValueError QUERY_EXCLUSIVE))
  else
    let headers :=
      match cp_default_headers a, cp_set_default_headers a with
      | Some dh, _ => dh ∪ _custom_headers base
      | None, Some sh => sh
      | None, None => _custom_headers base
      end in
    let params :=
      match cp_default_query a, cp_set_default_query a with
      | Some dq, _ => dq ∪ _custom_query base
      | None, Some sq => sq
      | None, None => _custom_query base
      end in
    let http_client := default (_client base) (cp_http_client a) in
    '(self, pid) ←
      match cp_project_id a with
      | Some p => mret (self, Some p)
      | None =>
          '(self, p) ← project_id self;
          mret (self, if str_truthy p then p else None)
      end;
    let kwargs :=
      {| kw_adapter :=
           {| arg_region := Some (default (region self) (cp_region a));
              arg_project_id := pid;
              arg_access_token :=
                if str_truthy (cp_access_token a) then cp_access_token a
                else access_token self;
              arg_credentials :=
                match cp_credentials a with
                | Some c => Some c
                | None => credentials self
                end;
              arg_base_url :=
                Some (match cp_base_url a with
                      | Some u => if negb (String.eqb u "") then u else base_url self
                      | None => base_url self
                      end) |};
         kw_timeout := default (timeout base) (cp_timeout a);
         kw_http_client := http_client;
         kw_max_retries := default (max_retries base) (cp_max_retries a);
         kw_default_headers := headers;
         kw_default_query := params |} in
    new ← __init__ (kw_adapter kwargs);
    match new with
    | inl e => mret (self, inl e)
    | inr c => mret (self, inr (kwargs, c))
    end.

End Copy.

Arguments mkBase {Timeout HttpClient}.
Arguments _custom_headers {Timeout HttpClient}.
Arguments _custom_query {Timeout HttpClient}.
Arguments timeout {Timeout HttpClient}.
Arguments max_retries {Timeout HttpClient}.
Arguments _client {Timeout HttpClient}.
Arguments mkCopyArgs {Timeout HttpClient}.
Arguments cp_region {Timeout HttpClient}.
Arguments cp_project_id {Timeout HttpClient}.
Arguments cp_access_token {Timeout HttpClient}.
Arguments cp_credentials {Timeout HttpClient}.
Arguments cp_base_url {Timeout HttpClient}.
Arguments cp_timeout {Timeout HttpClient}.
Arguments cp_http_client {Timeout HttpClient}.
Arguments cp_max_retries {Timeout HttpClient}.
Arguments cp_default_headers {Timeout HttpClient}.
Arguments cp_set_default_headers {Timeout HttpClient}.
Arguments cp_default_query {Timeout HttpClient}.
Arguments cp_set_default_query {Timeout HttpClient}.
Arguments mkKwargs {Timeout HttpClient}.
Arguments kw_adapter {Timeout HttpClient}.
Arguments kw_timeout {Timeout HttpClient}.
Arguments kw_http_client {Timeout HttpClient}.
Arguments kw_max_retries {Timeout HttpClient}.
Arguments kw_default_headers {Timeout HttpClient}.
Arguments kw_default_query {Timeout HttpClient}.
Arguments copy {Timeout HttpClient}.

(** Sample inputs for the methods. *)
Definition plain_base : base_attrs unit unit :=
  mkBase ∅ ∅ tt 2%Z tt.

Definition no_copy_args : copy_args unit unit :=
  mkCopyArgs None None None None None None None None None None None None.

End Client.

(** * Properties of the rewriter *)

Module RewriteProps.
Import Json Store Rewrite Examples.
Local Open Scope list_scope.

(** ** Running the primitives on a store whose last objects are the copy *)

Lemma bind_run {A B} (m : M A) (k : A → M B) h :
  (m ≫= k) h =
  match m h with
  | Returns a h' => k a h'
  | Raises e h' => Raises e h'
  | Stuck => Stuck
  end.
Proof. reflexivity. Qed.

Lemma ret_run {A} (a : A) h : ret a h = Returns a h.
Proof. reflexivity. Qed.

Lemma raise_run {A} e h : raise (A := A) e h = Raises e h.
Proof. reflexivity. Qed.

Lemma get_options_new os o bs :
  get_options (length os) (mkHeap (os ++ [o]) bs) = Returns o (mkHeap (os ++ [o]) bs).
Proof. unfold get_options; simpl. by rewrite list_lookup_middle. Qed.

Lemma get_body_new os bs v :
  get_body (length bs) (mkHeap os (bs ++ [v])) = Returns v (mkHeap os (bs ++ [v])).
Proof. unfold get_body; simpl. by rewrite list_lookup_middle. Qed.

Lemma set_body_new os bs v v' :
  set_body (length bs) v' (mkHeap os (bs ++ [v])) = Returns tt (mkHeap os (bs ++ [v'])).
Proof.
  unfold set_body; simpl. rewrite list_lookup_middle by done.
  by rewrite insert_app_r_alt, Nat.sub_diag by lia.
Qed.

Lemma set_url_new os o bs u :
  set_url (length os) u (mkHeap (os ++ [o]) bs)
  = Returns tt (mkHeap (os ++ [mkOptions (method o) u (json_data o)]) bs).
Proof.
  unfold set_url; simpl. rewrite list_lookup_middle by done.
  by rewrite insert_app_r_alt, Nat.sub_diag by lia.
Qed.

Lemma dict_pop_new os bs d key :
  dict_pop (length bs) key (mkHeap os (bs ++ [JDict d])) =
  match d !! key with
  | Some x => Returns x (mkHeap os (bs ++ [JDict (delete key d)]))
  | None => Raises (KeyError key) (mkHeap os (bs ++ [JDict d]))
  end.
Proof.
  unfold dict_pop. rewrite bind_run, get_body_new.
  destruct (d !! key); [|done]. by rewrite bind_run, set_body_new.
Qed.

Lemma dict_get_new os bs d key dflt :
  dict_get (length bs) key dflt (mkHeap os (bs ++ [JDict d])) =
  Returns (default dflt (d !! key)) (mkHeap os (bs ++ [JDict d])).
Proof. unfold dict_get. by rewrite bind_run, get_body_new. Qed.

Lemma model_copy_deep_run h i o b :
  options_objs h !! i = Some o → body_objs h !! json_data o = Some b →
  model_copy i true h
  = Returns (length (options_objs h))
      (mkHeap (options_objs h ++ [mkOptions (method o) (url o) (length (body_objs h))])
              (body_objs h ++ [b])).
Proof.
  intros Ho Hb. unfold model_copy. rewrite bind_run. unfold get_options. rewrite Ho.
  rewrite bind_run. unfold get_body. by rewrite Hb.
Qed.

Lemma stamp_run os bs b :
  (if is_dict b
   then dict_setdefault (length bs) "anthropic_version" (JStr DEFAULT_VERSION);; ret tt
   else ret tt) (mkHeap os (bs ++ [b]))
  = Returns tt (mkHeap os (bs ++ [stamped b])).
Proof.
  destruct b; try reflexivity. simpl.
  rewrite bind_run. unfold dict_setdefault. rewrite bind_run, get_body_new.
  destruct (d !! "anthropic_version"); [reflexivity|].
  by rewrite bind_run, set_body_new.
Qed.

Lemma request_at_inv h i m u b :
  request_at h i = Some (m, u, b) →
  ∃ o, options_objs h !! i = Some o ∧ body_objs h !! json_data o = Some b
       ∧ method o = m ∧ url o = u.
Proof.
  unfold request_at. intros H.
  destruct (options_objs h !! i) as [o|] eqn:Ho; [|done].
  destruct (body_objs h !! json_data o) as [v|] eqn:Hv; [|done].
  injection H as <- <- <-. exists o. auto.
Qed.

Lemma request_at_new os bs m u v :
  request_at (mkHeap (os ++ [mkOptions m u (length bs)]) (bs ++ [v])) (length os)
  = Some (m, u, v).
Proof.
  unfold request_at; simpl. rewrite list_lookup_middle by done; simpl.
  by rewrite list_lookup_middle.
Qed.

Ltac step :=
  first
    [ rewrite bind_run
    | rewrite ret_run
    | rewrite raise_run
    | rewrite get_options_new
    | rewrite get_body_new
    | rewrite set_url_new
    | rewrite stamp_run
    | rewrite dict_pop_new
    | rewrite dict_get_new
    | progress cbn [json_data method url is_dict negb] ].

(** Up to the first test on the URL: the copy is made and stamped. *)
Ltac start Hreq :=
  let o := fresh "o" in
  let Ho := fresh "Ho" in
  let Hb := fresh "Hb" in
  let Hm := fresh "Hm" in
  let Hu := fresh "Hu" in
  apply request_at_inv in Hreq as (o & Ho & Hb & Hm & Hu);
  unfold _prepare_options;
  rewrite bind_run, (model_copy_deep_run _ _ _ _ Ho Hb), Hm, Hu;
  repeat step.

(** ** The message-creation rule *)

Lemma JDict_inj d d' : JDict d = JDict d' → d = d'.
Proof.
  intros H.
  exact (f_equal (λ v, match v with JDict x => x | _ => d end) H).
Qed.

Lemma stamped_dict d :
  ∃ d1, stamped (JDict d) = JDict d1
        ∧ d1 !! "anthropic_version"
          = Some (default (JStr DEFAULT_VERSION) (d !! "anthropic_version"))
        ∧ ∀ k, k ≠ "anthropic_version" → d1 !! k = d !! k.
Proof.
  unfold stamped. destruct (d !! "anthropic_version") as [x|] eqn:E.
  - exists d. by rewrite E.
  - eexists. split; [done|]. split.
    + by rewrite lookup_insert_eq.
    + intros k Hk. by rewrite lookup_insert_ne.
Qed.

(** Decide a test whose operands are all known. *)
Ltac decide_test :=
  match goal with
  | |- context [if ?c then _ else _] =>
      let v := eval vm_compute in c in
      match v with
      | true => change c with true
      | false => change c with false
      end; cbv iota
  end.

Lemma rewritten_url_not_count_tokens x :
  str_in ("/projects/" +:+ x) COUNT_TOKENS_URLS = false.
Proof. reflexivity. Qed.

Lemma rewritten_url_not_batches x :
  String.prefix BATCHES_PREFIX ("/projects/" +:+ x) = false.
Proof. reflexivity. Qed.

(** C1.  A POST to ["/v1/messages"] or ["/v1/messages?beta=true"] with a
    project id [p], a region [r] and a dict body whose ["model"] is [m]
    returns a request whose URL is
    ["/projects/{p}/locations/{r}/publishers/anthropic/models/{m}:{verb}"],
    the verb being ["streamRawPredict"] when the body's ["stream"] (taken
    as [False] when missing) is truthy and ["rawPredict"] otherwise, and
    whose body has no ["model"] key. *)
Theorem messages_rewrite str_of h i u d m p r :
  request_at h i = Some ("post", u, JDict d) →
  u = "/v1/messages" ∨ u = "/v1/messages?beta=true" →
  d !! "model" = Some m →
  ∃ h' res d',
    _prepare_options str_of i (Some p) r h = Returns res h' ∧
    request_at h' res =
      Some ("post",
            "/projects/" +:+ p +:+ "/locations/" +:+ r
              +:+ "/publishers/anthropic/models/" +:+ py_format str_of m +:+ ":"
              +:+ (if truthy (default (JBool false) (d !! "stream"))
                   then "streamRawPredict" else "rawPredict"),
            JDict d') ∧
    d' !! "model" = None.
Proof.
  intros Hreq Hu Hmodel. start Hreq.
  destruct (stamped_dict d) as (d1 & -> & _ & Hd1).
  assert (Hcond : str_in u MESSAGES_URLS && ("post" =? "post") = true)
    by (by destruct Hu as [-> | ->]).
  rewrite Hcond. repeat step.
  rewrite Hd1, Hmodel by done. repeat step.
  rewrite lookup_delete_ne, Hd1 by done.
  unfold model_url.
  rewrite rewritten_url_not_count_tokens. cbn [andb]. repeat step.
  rewrite rewritten_url_not_batches.
  eexists _, _, _. split; [reflexivity|]. split.
  - apply request_at_new.
  - apply lookup_delete_eq.
Qed.

Lemma messages_rewrite_witness :
  ∃ h' res d',
    _prepare_options no_str 0 (Some "p") "us-central1"
      (one_request "post" "/v1/messages" create_body) = Returns res h' ∧
    request_at h' res =
      Some ("post",
            "/projects/p/locations/us-central1/publishers/anthropic/models/claude-3:rawPredict",
            JDict d') ∧
    d' !! "model" = None.
Proof.
  apply (messages_rewrite no_str (one_request "post" "/v1/messages" create_body) 0
           "/v1/messages" create_fields (JStr "claude-3") "p" "us-central1").
  - reflexivity.
  - left; reflexivity.
  - vm_compute; reflexivity.
Defined.

(** ** A missing project id *)

(** Stamping leaves the ["model"] entry of a body as it was. *)
Lemma stamped_keeps_model b :
  match stamped b with JDict d' => d' !! "model" | _ => None end
  = match b with JDict d => d !! "model" | _ => None end.
Proof.
  destruct b; try reflexivity.
  destruct (stamped_dict d) as (d1 & -> & _ & Hd1). by apply Hd1.
Qed.

(** C2.  A POST to one of the two message-creation URLs or one of the two
    count-tokens URLs with no project id raises the configuration error,
    whatever the body is (a dict without ["model"], or no dict at all).
    When it is raised nothing but the copy and its version stamp has been
    made: the store holds the objects it held, the copy with the method
    and URL of the input, and the copy's body, whose ["model"] entry is
    that of the input's body. *)
Theorem missing_project_id str_of h i u b r :
  request_at h i = Some ("post", u, b) →
  u = "/v1/messages" ∨ u = "/v1/messages?beta=true"
  ∨ u = "/v1/messages/count_tokens" ∨ u = "/v1/messages/count_tokens?beta=true" →
  ∃ h',
    _prepare_options str_of i None r h = Raises (RuntimeError NO_PROJECT_ID) h' ∧
    options_objs h' = (options_objs h ++ [mkOptions "post" u (length (body_objs h))])%list ∧
    body_objs h' = (body_objs h ++ [stamped b])%list ∧
    match stamped b with JDict d' => d' !! "model" | _ => None end
    = match b with JDict d => d !! "model" | _ => None end.
Proof.
  intros Hreq Hu. start Hreq.
  eexists. split; [|split; [|split; [|apply stamped_keeps_model]]].
  - destruct Hu as [-> | [-> | [-> | ->]]]; repeat (decide_test || step); reflexivity.
  - reflexivity.
  - reflexivity.
Qed.

Lemma missing_project_id_witness :
  ∃ h',
    _prepare_options no_str 0 None "us-central1"
      (one_request "post" "/v1/messages?beta=true" (JList [])) = Raises (RuntimeError NO_PROJECT_ID) h' ∧
    options_objs h' = [mkOptions "post" "/v1/messages?beta=true" 0;
                       mkOptions "post" "/v1/messages?beta=true" 1] ∧
    body_objs h' = [JList []; JList []] ∧
    (None : option json) = None.
Proof.
  apply (missing_project_id no_str (one_request "post" "/v1/messages?beta=true" (JList [])) 0
           "/v1/messages?beta=true" (JList []) "us-central1").
  - reflexivity.
  - right; left; reflexivity.
Defined.

(** ** The count-tokens rule *)

(** C3, as amended.  A POST to ["/v1/messages/count_tokens"] or
    ["/v1/messages/count_tokens?beta=true"] with a project id returns a
    request whose URL is
    ["/projects/{project_id}/locations/{region}/publishers/anthropic/models/count-tokens:rawPredict"]
    and whose body is the input's body after the version stamping that
    every dict body gets: the count-tokens rule itself changes no body. *)
Theorem count_tokens_rewrite str_of h i u b p r :
  request_at h i = Some ("post", u, b) →
  u = "/v1/messages/count_tokens" ∨ u = "/v1/messages/count_tokens?beta=true" →
  ∃ h' res,
    _prepare_options str_of i (Some p) r h = Returns res h' ∧
    request_at h' res =
      Some ("post",
            "/projects/" +:+ p +:+ "/locations/" +:+ r
              +:+ "/publishers/anthropic/models/count-tokens:rawPredict",
            stamped b) ∧
    (is_dict b = false → stamped b = b) ∧
    (∀ d x, b = JDict d → d !! "anthropic_version" = Some x → stamped b = b) ∧
    (∀ d, b = JDict d → d !! "anthropic_version" = None →
          stamped b = JDict (<["anthropic_version" := JStr "vertex-2023-10-16"]> d)).
Proof.
  intros Hreq Hu. start Hreq.
  eexists _, _. split; [|split; [apply request_at_new|]].
  - destruct Hu as [-> | ->]; repeat (decide_test || step); reflexivity.
  - split; [by destruct b|]. split.
    + intros d x -> Hx. unfold stamped. by rewrite Hx.
    + intros d -> Hx. unfold stamped. by rewrite Hx.
Qed.

Lemma count_tokens_rewrite_witness :
  ∃ h' res,
    _prepare_options no_str 0 (Some "p") "us-central1"
      (one_request "post" "/v1/messages/count_tokens" versioned_body) = Returns res h' ∧
    request_at h' res =
      Some ("post",
            "/projects/p/locations/us-central1/publishers/anthropic/models/count-tokens:rawPredict",
            versioned_body) ∧
    (is_dict versioned_body = false → stamped versioned_body = versioned_body) ∧
    (∀ d x, versioned_body = JDict d → d !! "anthropic_version" = Some x →
            stamped versioned_body = versioned_body) ∧
    (∀ d, versioned_body = JDict d → d !! "anthropic_version" = None →
          stamped versioned_body
          = JDict (<["anthropic_version" := JStr "vertex-2023-10-16"]> d)).
Proof.
  apply (count_tokens_rewrite no_str
           (one_request "post" "/v1/messages/count_tokens" versioned_body) 0
           "/v1/messages/count_tokens" versioned_body "p" "us-central1").
  - reflexivity.
  - left; reflexivity.
Defined.

(** The body of a count-tokens request does change when it is a dict
    without ["anthropic_version"]: the returned body of [{}] is
    [{"anthropic_version": "vertex-2023-10-16"}]. *)
Lemma count_tokens_body_differs :
  ∃ h' res,
    request_at (one_request "post" "/v1/messages/count_tokens" (JDict ∅)) 0
      = Some ("post", "/v1/messages/count_tokens", JDict ∅) ∧
    _prepare_options no_str 0 (Some "p") "us-central1"
      (one_request "post" "/v1/messages/count_tokens" (JDict ∅)) = Returns res h' ∧
    request_at h' res =
      Some ("post",
            "/projects/p/locations/us-central1/publishers/anthropic/models/count-tokens:rawPredict",
            JDict {[ "anthropic_version" := JStr "vertex-2023-10-16" ]}) ∧
    JDict {[ "anthropic_version" := JStr "vertex-2023-10-16" ]} ≠ JDict ∅.
Proof.
  eexists _, _. split; [reflexivity|]. split; [vm_compute; reflexivity|].
  split; [vm_compute; reflexivity|].
  intros H. by apply JDict_inj, map_non_empty_singleton in H.
Qed.

(** ** What every run leaves behind *)

(** On a request that is in the store, [_prepare_options] returns or
    raises; either way the store has grown by the copy and its body, and
    the copy's body is the stamped body of the input, with ["model"]
    popped or not. *)
Lemma prepare_options_shape str_of h i m u b pid r :
  request_at h i = Some (m, u, b) →
  ∃ u' b',
    (_prepare_options str_of i pid r h
       = Returns (length (options_objs h))
           (mkHeap (options_objs h ++ [mkOptions m u' (length (body_objs h))])
                   (body_objs h ++ [b']))
     ∨ ∃ e, _prepare_options str_of i pid r h
       = Raises e
           (mkHeap (options_objs h ++ [mkOptions m u' (length (body_objs h))])
                   (body_objs h ++ [b'])))
    ∧ (b' = stamped b
       ∨ ∃ d1 x, stamped b = JDict d1 ∧ d1 !! "model" = Some x
                 ∧ b' = JDict (delete "model" d1)).
Proof.
  intros Hreq. start Hreq.
  destruct (str_in u MESSAGES_URLS && (m =? "post")) eqn:E1.
  - destruct pid as [p|]; repeat step; [|eauto 10].
    destruct (stamped b) as [| | | | | |d1] eqn:Eb; repeat step; eauto 10.
    destruct (d1 !! "model") as [x|] eqn:Ex; repeat step; [|eauto 10].
    unfold model_url. rewrite rewritten_url_not_count_tokens. cbn [andb].
    repeat step. rewrite rewritten_url_not_batches. eauto 10.
  - repeat step.
    destruct (str_in u COUNT_TOKENS_URLS && (m =? "post")) eqn:E2.
    + destruct pid as [p|]; repeat step; [|eauto 10].
      unfold count_tokens_url. rewrite rewritten_url_not_batches. eauto 10.
    + repeat step. destruct (String.prefix BATCHES_PREFIX u); repeat step; eauto 10.
Qed.

(** ** The batches guard *)

Lemma prefix_differs p s t :
  String.prefix p s = true → String.prefix p t = false → s ≠ t.
Proof. intros Hs Ht ->. congruence. Qed.

Lemma batches_not_rewritten u :
  String.prefix BATCHES_PREFIX u = true →
  str_in u MESSAGES_URLS = false ∧ str_in u COUNT_TOKENS_URLS = false.
Proof.
  intros Hu. unfold str_in, MESSAGES_URLS, COUNT_TOKENS_URLS; cbn [existsb].
  rewrite !orb_false_r.
  split; apply orb_false_intro; apply String.eqb_neq;
    by apply (prefix_differs BATCHES_PREFIX).
Qed.

(** C5.  A request whose URL begins with ["/v1/messages/batches"] is
    rejected with the "Batch API is not supported" [AnthropicError],
    whatever its method, its body and the project id: such a URL is none
    of the four that the two rewriting rules match, so it reaches the
    guard as it came in, and a URL that one of the rules did rewrite
    begins with ["/projects/"]. *)
Theorem batches_unsupported str_of h i m u b pid r :
  request_at h i = Some (m, u, b) →
  String.prefix "/v1/messages/batches" u = true →
  ∃ h', _prepare_options str_of i pid r h = Raises (AnthropicError NO_BATCH_API) h'.
Proof.
  intros Hreq Hu. start Hreq.
  destruct (batches_not_rewritten u Hu) as [H1 H2].
  rewrite H1. cbn [andb]. repeat step.
  rewrite H2. cbn [andb]. repeat step.
  change "/v1/messages/batches" with BATCHES_PREFIX in Hu.
  rewrite Hu. repeat step. eauto.
Qed.

Lemma batches_unsupported_witness :
  ∃ h', _prepare_options no_str 0 None "us-central1"
          (one_request "get" "/v1/messages/batches/msgbatch_01?beta=true" JNone)
        = Raises (AnthropicError "The Batch API is not supported in the Vertex client yet") h'.
Proof.
  apply (batches_unsupported no_str
           (one_request "get" "/v1/messages/batches/msgbatch_01?beta=true" JNone) 0
           "get" "/v1/messages/batches/msgbatch_01?beta=true" JNone None "us-central1").
  - reflexivity.
  - reflexivity.
Defined.

(** ** The input is left alone *)

(** C8.  Whatever the request, the project id and the region,
    [_prepare_options] returns or raises, and every object that was in the
    store before the call is in it afterwards, unchanged: all writes went
    to the copy.  In particular the caller's reference still shows the
    method, the URL and the body (nested values included) it showed
    before. *)
Theorem input_not_mutated str_of h i m u b pid r :
  request_at h i = Some (m, u, b) →
  ∃ h',
    ((∃ res, _prepare_options str_of i pid r h = Returns res h')
     ∨ (∃ e, _prepare_options str_of i pid r h = Raises e h')) ∧
    (∀ (l : loc) o, options_objs h !! l = Some o → options_objs h' !! l = Some o) ∧
    (∀ (l : loc) v, body_objs h !! l = Some v → body_objs h' !! l = Some v) ∧
    request_at h' i = Some (m, u, b).
Proof.
  intros Hreq.
  destruct (prepare_options_shape str_of h i m u b pid r Hreq)
    as (u' & b' & Hrun & _).
  eexists. split; [destruct Hrun as [Hrun | [e Hrun]]; eauto|].
  assert (Hos : ∀ (l : loc) o, options_objs h !! l = Some o →
                       (options_objs h ++ [mkOptions m u' (length (body_objs h))]) !! l = Some o)
    by (intros; by apply lookup_app_l_Some).
  assert (Hbs : ∀ (l : loc) v, body_objs h !! l = Some v →
                       (body_objs h ++ [b']) !! l = Some v)
    by (intros; by apply lookup_app_l_Some).
  split; [exact Hos|]. split; [exact Hbs|].
  apply request_at_inv in Hreq as (o & Ho & Hb & <- & <-).
  unfold request_at; cbn [options_objs body_objs].
  by rewrite (Hos _ _ Ho), (Hbs _ _ Hb).
Qed.

Lemma input_not_mutated_witness :
  ∃ h',
    ((∃ res, _prepare_options no_str 0 (Some "p") "us-central1"
               (one_request "post" "/v1/messages" create_body) = Returns res h')
     ∨ (∃ e, _prepare_options no_str 0 (Some "p") "us-central1"
               (one_request "post" "/v1/messages" create_body) = Raises e h')) ∧
    (∀ (l : loc) o,
        options_objs (one_request "post" "/v1/messages" create_body) !! l = Some o →
        options_objs h' !! l = Some o) ∧
    (∀ (l : loc) v,
        body_objs (one_request "post" "/v1/messages" create_body) !! l = Some v →
        body_objs h' !! l = Some v) ∧
    request_at h' 0 = Some ("post", "/v1/messages", create_body).
Proof.
  apply (input_not_mutated no_str (one_request "post" "/v1/messages" create_body) 0
           "post" "/v1/messages" create_body (Some "p") "us-central1").
  reflexivity.
Defined.

(** A shallow copy would not do: the body stays shared, and stamping it
    through the copy shows through the caller's reference. *)
Lemma shallow_copy_shares_body :
  (options ← model_copy 0 false;
   o ← get_options options;
   dict_setdefault (json_data o) "anthropic_version" (JStr DEFAULT_VERSION))
    (one_request "post" "/v1/complete" (JDict ∅))
  = Returns (JStr "vertex-2023-10-16")
      (mkHeap [mkOptions "post" "/v1/complete" 0; mkOptions "post" "/v1/complete" 0]
              [JDict {[ "anthropic_version" := JStr "vertex-2023-10-16" ]}]).
Proof. vm_compute. reflexivity. Qed.

(** ** Requests that no rule matches *)

(** C10, as amended.  A request whose URL does not begin with
    ["/v1/messages/batches"], and whose URL is none of the four endpoint
    URLs or whose method is not ["post"], is returned with its method and
    its URL unchanged and its body stamped, with or without a project id;
    the endpoint URLs are matched as whole strings, query included. *)
Theorem passthrough str_of h i m u b pid r :
  request_at h i = Some (m, u, b) →
  String.prefix "/v1/messages/batches" u = false →
  (u ≠ "/v1/messages" ∧ u ≠ "/v1/messages?beta=true"
   ∧ u ≠ "/v1/messages/count_tokens" ∧ u ≠ "/v1/messages/count_tokens?beta=true")
  ∨ m ≠ "post" →
  ∃ h' res,
    _prepare_options str_of i pid r h = Returns res h' ∧
    request_at h' res = Some (m, u, stamped b).
Proof.
  intros Hreq Hpre Hno. start Hreq.
  assert (E1 : str_in u MESSAGES_URLS && (m =? "post") = false
             ∧ str_in u COUNT_TOKENS_URLS && (m =? "post") = false).
  { destruct Hno as [(H1 & H2 & H3 & H4) | Hm'].
    - apply String.eqb_neq in H1, H2, H3, H4.
      unfold str_in, MESSAGES_URLS, COUNT_TOKENS_URLS; cbn [existsb].
      by rewrite H1, H2, H3, H4.
    - apply String.eqb_neq in Hm'. rewrite Hm', !andb_false_r. done. }
  destruct E1 as [E1 E2].
  rewrite E1. repeat step. rewrite E2. repeat step.
  change "/v1/messages/batches" with BATCHES_PREFIX in Hpre.
  rewrite Hpre. eexists _, _. split; [reflexivity|]. apply request_at_new.
Qed.

Lemma passthrough_witness :
  ∃ h' res,
    _prepare_options no_str 0 None "us-central1"
      (one_request "post" "/v1/messages?beta=false" (JDict ∅)) = Returns res h' ∧
    request_at h' res = Some ("post", "/v1/messages?beta=false", stamped (JDict ∅)).
Proof.
  apply (passthrough no_str (one_request "post" "/v1/messages?beta=false" (JDict ∅)) 0
           "post" "/v1/messages?beta=false" (JDict ∅) None "us-central1").
  - reflexivity.
  - reflexivity.
  - left. repeat split; discriminate.
Defined.

(** A request whose method is not ["post"] is not always returned: a GET
    of a batches URL is rejected. *)
Lemma get_batches_rejected :
  request_at (one_request "get" "/v1/messages/batches" JNone) 0
    = Some ("get", "/v1/messages/batches", JNone) ∧
  "get" ≠ "post" ∧
  (∃ h', _prepare_options no_str 0 (Some "p") "us-central1"
           (one_request "get" "/v1/messages/batches" JNone)
         = Raises (AnthropicError NO_BATCH_API) h') ∧
  (∀ h' res, _prepare_options no_str 0 (Some "p") "us-central1"
               (one_request "get" "/v1/messages/batches" JNone)
             ≠ Returns res h').
Proof.
  split; [reflexivity|]. split; [discriminate|].
  split; [eexists; vm_compute; reflexivity|].
  intros h' res. vm_compute. discriminate.
Qed.

End RewriteProps.

(** * Properties of the status classification *)

Module StatusProps.
Import Json Status.

(** C9.  [_make_status_error] classifies by the fixed table: the error it
    returns carries the message, the response and the body it was given,
    and its class is the one the table has for the status code, or else
    [InternalServerError] from 500 upwards and the plain [APIStatusError]
    below. *)
Theorem make_status_error_table err_msg body response :
  _make_status_error err_msg body response
  = mkStatusError (classification (status_code response)) err_msg response body.
Proof.
  destruct response as [code].
  unfold _make_status_error, classification, status_table, table_lookup.
  cbn [status_code].
  repeat match goal with
         | |- context [(code =? ?k)%Z] =>
             destruct (Z.eqb_spec code k) as [-> | ?]; [reflexivity|]
         end.
  repeat match goal with
         | |- context [(?k =? code)%Z] =>
             destruct (Z.eqb_spec k code); [congruence|]
         end.
  rewrite Z.geb_leb. by destruct (500 <=? code)%Z.
Qed.

End StatusProps.

(** * Properties of the credential resolver *)

Module AuthProps.
Import Store Auth Examples.

(** ** A static access token *)

Lemma ensure_static self tok :
  access_token self = Some tok →
  _ensure_access_token self = Done (self, inr tok).
Proof. intros H. unfold _ensure_access_token. by rewrite H. Qed.

Lemma calls_static ws self tok :
  access_token self = Some tok →
  calls ws self = (self, map (λ _, ([], inr tok)) ws).
Proof.
  intros H. induction ws as [|w ws IH]; [reflexivity|].
  cbn [calls map]. rewrite (ensure_static _ _ H). cbn [run]. by rewrite IH.
Qed.

Lemma init_inv w args tr self :
  run w (__init__ args) = (tr, inr self) →
  access_token self = arg_access_token args
  ∧ credentials self = arg_credentials args
  ∧ project_id_cache self
    = match arg_project_id args with Some p => Some (Some p) | None => None end.
Proof.
  unfold __init__. intros H.
  destruct (arg_region args) as [rg|], (arg_base_url args) as [bu|];
    cbn in H; repeat (destruct (environ w _); cbn in H);
    by simplify_eq.
Qed.

(** C7.  A client constructed with an access token, the empty string
    included, answers every call of [_ensure_access_token] with that very
    token without calling anything (the trace of each call is empty, so
    neither the loader nor the refresher ran), however many calls are made
    and whatever the held credentials handle is: absent, expired, without
    a token. *)
Theorem static_token_no_auth_calls w args tr self tok
    (handle : option Credentials) (ws : list world) :
  arg_access_token args = Some tok →
  run w (__init__ args) = (tr, inr self) →
  calls ws (set_credentials self handle)
  = (set_credentials self handle, map (λ _, ([], inr tok)) ws).
Proof.
  intros Htok Hinit.
  apply init_inv in Hinit as (Ha & _ & _).
  apply calls_static. cbn. by rewrite Ha.
Qed.

Lemma static_token_no_auth_calls_witness :
  calls [gcloud; gcloud; gcloud]
    (mkClient "us-central1" None (Some "") (Some (mkCredentials true None))
       "https://us-central1-aiplatform.googleapis.com/v1")
  = (mkClient "us-central1" None (Some "") (Some (mkCredentials true None))
       "https://us-central1-aiplatform.googleapis.com/v1",
     [([], inr ""); ([], inr ""); ([], inr "")]).
Proof.
  apply (static_token_no_auth_calls gcloud (with_token "")
           [EvEnv "ANTHROPIC_VERTEX_BASE_URL"]
           (mkClient "us-central1" None (Some "") (Some (mkCredentials true None))
              "https://us-central1-aiplatform.googleapis.com/v1")
           "" (Some (mkCredentials true None)) [gcloud; gcloud; gcloud]).
  - reflexivity.
  - reflexivity.
Defined.

(** ** An explicit project id *)

Lemma str_truthy_nonempty p : p ≠ "" → str_truthy (Some p) = true.
Proof. intros Hp. cbn. by apply String.eqb_neq in Hp as ->. Qed.

(** One call keeps a cached, non-empty project id, whatever the world
    answers. *)
Lemma ensure_keeps_project_id w self p :
  project_id_cache self = Some (Some p) → p ≠ "" →
  project_id_cache (fst (snd (run w (_ensure_access_token self)))) = Some (Some p).
Proof.
  intros Hc Hp. apply str_truthy_nonempty in Hp.
  destruct self as [rg cache tok creds bu]. cbn in Hc. subst cache.
  unfold _ensure_access_token, project_id.
  cbn [access_token credentials project_id_cache set_credentials].
  destruct tok as [tok|]; [reflexivity|].
  destruct creds as [c|].
  - cbn. destruct (expired c || negb (str_truthy (token c))); cbn.
    + destruct (on_refresh w c) as [c' [e|]]; cbn; [reflexivity|].
      destruct (token c') as [t|]; [destruct (negb (t =? ""))|]; reflexivity.
    + destruct (token c) as [t|]; [destruct (negb (t =? ""))|]; reflexivity.
  - cbn. destruct (on_load w (Some p)) as [e|[c loaded]]; cbn; [reflexivity|].
    change (negb (p =? "")) with (str_truthy (Some p)). rewrite Hp. cbn.
    destruct (expired c || negb (str_truthy (token c))); cbn.
    + destruct (on_refresh w c) as [c' [e|]]; cbn; [reflexivity|].
      destruct (token c') as [t|]; [destruct (negb (t =? ""))|]; reflexivity.
    + destruct (token c) as [t|]; [destruct (negb (t =? ""))|]; reflexivity.
Qed.

Lemma calls_keep_project_id ws self p :
  project_id_cache self = Some (Some p) → p ≠ "" →
  project_id_cache (fst (calls ws self)) = Some (Some p).
Proof.
  intros Hc Hp. revert self Hc.
  induction ws as [|w ws IH]; intros self Hc; [exact Hc|].
  cbn [calls].
  pose proof (ensure_keeps_project_id w self p Hc Hp) as Hstep.
  destruct (run w (_ensure_access_token self)) as [tr [self' res]].
  cbn in Hstep. specialize (IH self' Hstep).
  by destruct (calls ws self') as [self'' rs].
Qed.

(** C6, as amended.  A non-empty project id given to the constructor is
    what the client holds after any sequence of calls of
    [_ensure_access_token], whatever project id the loader returns in any
    of them. *)
Theorem explicit_project_id_kept w args tr self p ws :
  arg_project_id args = Some p → p ≠ "" →
  run w (__init__ args) = (tr, inr self) →
  project_id_cache (fst (calls ws self)) = Some (Some p).
Proof.
  intros Hp Hne Hinit.
  apply init_inv in Hinit as (_ & _ & Hc). rewrite Hp in Hc.
  by apply calls_keep_project_id.
Qed.

Lemma explicit_project_id_kept_witness :
  project_id_cache
    (fst (calls [gcloud; gcloud]
            (mkClient "us-central1" (Some (Some "my-project")) None None
               "https://us-central1-aiplatform.googleapis.com/v1")))
  = Some (Some "my-project").
Proof.
  apply (explicit_project_id_kept gcloud (with_project "my-project")
           [EvEnv "ANTHROPIC_VERTEX_BASE_URL"]).
  - reflexivity.
  - discriminate.
  - reflexivity.
Defined.

(** An empty project id given to the constructor is replaced: the first
    call that loads credentials adopts the loader's project id. *)
Lemma empty_project_id_overwritten :
  ∃ tr self,
    arg_project_id (with_project "") = Some "" ∧
    run gcloud (__init__ (with_project "")) = (tr, inr self) ∧
    project_id_cache self = Some (Some "") ∧
    project_id_cache (fst (calls [gcloud] self)) = Some (Some "loaded-project").
Proof. eexists _, _. repeat split. Qed.

End AuthProps.


(** * Further properties of the rewriter *)

Module RewriteCases.
Import Json Store Rewrite Examples RewriteProps.
Local Open Scope list_scope.

(** The store after a run on [h]: what [h] held, then the copy with the
    URL [u'] and its body [b']. *)
Local Abbreviation grown h m u' b' :=
  (mkHeap (options_objs h ++ [mkOptions m u' (length (body_objs h))])
          (body_objs h ++ [b'])).

(** Every path through [_prepare_options], on a request that is in the
    store. *)
Lemma prepare_options_run str_of h i m u b pid r :
  request_at h i = Some (m, u, b) →
  _prepare_options str_of i pid r h =
  if str_in u MESSAGES_URLS && (m =? "post") then
    match pid with
    | None => Raises (RuntimeError NO_PROJECT_ID) (grown h m u (stamped b))
    | Some p =>
        match stamped b with
        | JDict d1 =>
            match d1 !! "model" with
            | None => Raises (KeyError "model") (grown h m u (stamped b))
            | Some x =>
                Returns (length (options_objs h))
                  (grown h m
                     (model_url p r (py_format str_of x)
                        (if truthy (default (JBool false) (delete "model" d1 !! "stream"))
                         then "streamRawPredict" else "rawPredict"))
                     (JDict (delete "model" d1)))
            end
        | _ => Raises (RuntimeError NOT_A_DICT) (grown h m u (stamped b))
        end
    end
  else if str_in u COUNT_TOKENS_URLS && (m =? "post") then
    match pid with
    | None => Raises (RuntimeError NO_PROJECT_ID) (grown h m u (stamped b))
    | Some p =>
        Returns (length (options_objs h)) (grown h m (count_tokens_url p r) (stamped b))
    end
  else if String.prefix BATCHES_PREFIX u then
    Raises (AnthropicError NO_BATCH_API) (grown h m u (stamped b))
  else
    Returns (length (options_objs h)) (grown h m u (stamped b)).
Proof.
  intros Hreq. start Hreq.
  destruct (str_in u MESSAGES_URLS && (m =? "post")) eqn:E1.
  - destruct pid as [p|]; repeat step; [|reflexivity].
    destruct (stamped b) as [| | | | | |d1] eqn:Eb; repeat step; try reflexivity.
    destruct (d1 !! "model") as [x|] eqn:Ex; repeat step; [|reflexivity].
    unfold model_url. rewrite rewritten_url_not_count_tokens. cbn [andb].
    repeat step. by rewrite rewritten_url_not_batches.
  - repeat step.
    destruct (str_in u COUNT_TOKENS_URLS && (m =? "post")) eqn:E2.
    + destruct pid as [p|]; repeat step; [|reflexivity].
      unfold count_tokens_url. by rewrite rewritten_url_not_batches.
    + repeat step. by destruct (String.prefix BATCHES_PREFIX u); repeat step.
Qed.

Lemma stamped_not_dict b : is_dict b = false → stamped b = b.
Proof. by destruct b. Qed.

Lemma stamped_stamped b : stamped (stamped b) = stamped b.
Proof.
  destruct b; try reflexivity.
  destruct (stamped_dict d) as (d1 & Hd1 & Hv & _). rewrite Hd1.
  unfold stamped. by rewrite Hv.
Qed.

Lemma endpoint_test u m :
  u = "/v1/messages" ∨ u = "/v1/messages?beta=true" →
  str_in u MESSAGES_URLS && (m =? "post") = (m =? "post").
Proof. by intros [-> | ->]. Qed.

(** ** Version stamping *)

(** C4.  On a request whose body is a dict, every run leaves in the store
    a copy of the request whose body is a dict in which
    ["anthropic_version"] is ["vertex-2023-10-16"] if the input's dict had
    no such key, and the value the input's dict had for it otherwise.
    That copy is what the run returns; the run raises instead only when
    the project id is missing, the dict has no ["model"], or the URL
    begins with ["/v1/messages/batches"]. *)
Theorem version_stamping str_of h i m u d pid r :
  request_at h i = Some (m, u, JDict d) →
  ∃ h' u' d',
    (_prepare_options str_of i pid r h = Returns (length (options_objs h)) h'
     ∨ (∃ e, _prepare_options str_of i pid r h = Raises e h')
       ∧ (pid = None ∨ d !! "model" = None
          ∨ String.prefix "/v1/messages/batches" u = true)) ∧
    request_at h' (length (options_objs h)) = Some (m, u', JDict d') ∧
    d' !! "anthropic_version"
    = match d !! "anthropic_version" with
      | None => Some (JStr "vertex-2023-10-16")
      | Some v => Some v
      end.
Proof.
  intros Hreq. rewrite (prepare_options_run _ _ _ _ _ _ _ _ Hreq).
  destruct (stamped_dict d) as (d1 & Hd1 & Hv & Hk). rewrite Hd1.
  assert (Hv' : d1 !! "anthropic_version"
                = match d !! "anthropic_version" with
                  | None => Some (JStr "vertex-2023-10-16")
                  | Some v => Some v
                  end) by (rewrite Hv; by destruct (d !! "anthropic_version")).
  assert (Hmodel : d1 !! "model" = d !! "model") by by apply Hk.
  destruct (str_in u MESSAGES_URLS && (m =? "post")).
  - destruct pid as [p|].
    + destruct (d1 !! "model") as [x|] eqn:Ex.
      * eexists _, _, _. split; [by left|]. split; [apply request_at_new|].
        by rewrite lookup_delete_ne.
      * eexists _, _, _. split; [right; split; eauto|].
        split; [apply request_at_new|done].
    + eexists _, _, _. split; [right; split; eauto|].
      split; [apply request_at_new|done].
  - destruct (str_in u COUNT_TOKENS_URLS && (m =? "post")).
    + destruct pid as [p|].
      * eexists _, _, _. split; [by left|]. split; [apply request_at_new|done].
      * eexists _, _, _. split; [right; split; eauto|].
        split; [apply request_at_new|done].
    + destruct (String.prefix BATCHES_PREFIX u) eqn:Ep.
      * eexists _, _, _. split; [right; split; eauto|].
        split; [apply request_at_new|done].
      * eexists _, _, _. split; [by left|]. split; [apply request_at_new|done].
Qed.

Lemma version_stamping_witness :
  ∃ h' u' d',
    (_prepare_options no_str 0 (Some "p") "us-central1"
       (one_request "post" "/v1/messages" create_body) = Returns 1 h'
     ∨ (∃ e, _prepare_options no_str 0 (Some "p") "us-central1"
               (one_request "post" "/v1/messages" create_body) = Raises e h')
       ∧ (Some "p" = None ∨ create_fields !! "model" = None
          ∨ String.prefix "/v1/messages/batches" "/v1/messages" = true)) ∧
    request_at h' 1 = Some ("post", u', JDict d') ∧
    d' !! "anthropic_version" = Some (JStr "vertex-2023-10-16").
Proof.
  refine (version_stamping no_str (one_request "post" "/v1/messages" create_body) 0
            "post" "/v1/messages" create_fields (Some "p") "us-central1" _).
  reflexivity.
Defined.

(** ** Bodies the message-creation rule rejects *)

(** X1.  A POST to a message-creation URL whose body is not a dict ([None], a
    list, a string, ...) is rejected with the "Expected json data to be a
    dictionary" [RuntimeError], once a project id is there. *)
Theorem messages_body_not_dict str_of h i u b p r :
  request_at h i = Some ("post", u, b) →
  u = "/v1/messages" ∨ u = "/v1/messages?beta=true" →
  is_dict b = false →
  ∃ h', _prepare_options str_of i (Some p) r h
        = Raises (RuntimeError "Expected json data to be a dictionary for post /v1/messages") h'.
Proof.
  intros Hreq Hu Hb.
  rewrite (prepare_options_run _ _ _ _ _ _ _ _ Hreq), (endpoint_test _ _ Hu).
  rewrite (stamped_not_dict _ Hb). cbn [String.eqb Ascii.eqb Bool.eqb andb].
  destruct b; try discriminate; eauto.
Qed.

Lemma messages_body_not_dict_witness :
  ∃ h', _prepare_options no_str 0 (Some "p") "us-central1"
          (one_request "post" "/v1/messages" (JList [JStr "model"]))
        = Raises (RuntimeError "Expected json data to be a dictionary for post /v1/messages") h'.
Proof.
  apply (messages_body_not_dict no_str
           (one_request "post" "/v1/messages" (JList [JStr "model"])) 0
           "/v1/messages" (JList [JStr "model"]) "p" "us-central1").
  - reflexivity.
  - left; reflexivity.
  - reflexivity.
Defined.

(** X2.  A POST to a message-creation URL whose dict body has no ["model"]
    key fails with [KeyError("model")], raised by [pop]; at that point
    the copy has been stamped but its URL is still the one that came in. *)
Theorem messages_model_missing str_of h i u d p r :
  request_at h i = Some ("post", u, JDict d) →
  u = "/v1/messages" ∨ u = "/v1/messages?beta=true" →
  d !! "model" = None →
  ∃ h',
    _prepare_options str_of i (Some p) r h = Raises (KeyError "model") h' ∧
    request_at h' (length (options_objs h)) = Some ("post", u, stamped (JDict d)).
Proof.
  intros Hreq Hu Hmodel.
  rewrite (prepare_options_run _ _ _ _ _ _ _ _ Hreq), (endpoint_test _ _ Hu).
  destruct (stamped_dict d) as (d1 & Hd1 & _ & Hk). rewrite Hd1.
  rewrite Hk, Hmodel by done. cbn [String.eqb Ascii.eqb Bool.eqb andb].
  eexists. split; [reflexivity|]. apply request_at_new.
Qed.

Lemma messages_model_missing_witness :
  ∃ h',
    _prepare_options no_str 0 (Some "p") "us-central1"
      (one_request "post" "/v1/messages" (JDict ∅)) = Raises (KeyError "model") h' ∧
    request_at h' 1 = Some ("post", "/v1/messages", stamped (JDict ∅)).
Proof.
  apply (messages_model_missing no_str (one_request "post" "/v1/messages" (JDict ∅)) 0
           "/v1/messages" ∅ "p" "us-central1").
  - reflexivity.
  - left; reflexivity.
  - reflexivity.
Defined.

(** ** The ways a run can end *)

(** X3.  On a request that is in the store a run returns, or raises one of
    four exceptions: the missing-project-id or the not-a-dictionary
    [RuntimeError], [KeyError("model")], or the Batch API
    [AnthropicError].  The dict methods are only called on dicts, so no
    [AttributeError] escapes. *)
Theorem prepare_options_errors str_of h i m u b pid r :
  request_at h i = Some (m, u, b) →
  (∃ res h', _prepare_options str_of i pid r h = Returns res h')
  ∨ (∃ e h', _prepare_options str_of i pid r h = Raises e h'
             ∧ (e = RuntimeError NO_PROJECT_ID ∨ e = RuntimeError NOT_A_DICT
                ∨ e = KeyError "model" ∨ e = AnthropicError NO_BATCH_API)).
Proof.
  intros Hreq. rewrite (prepare_options_run _ _ _ _ _ _ _ _ Hreq).
  destruct (str_in u MESSAGES_URLS && (m =? "post")).
  - destruct pid; [|right; eauto 10].
    destruct (stamped b) as [| | | | | |d1]; try (right; by eauto 10).
    destruct (d1 !! "model"); [left|right]; eauto 10.
  - destruct (str_in u COUNT_TOKENS_URLS && (m =? "post")).
    + destruct pid; [left|right]; eauto 10.
    + destruct (String.prefix BATCHES_PREFIX u); [right|left]; eauto 10.
Qed.

Lemma prepare_options_errors_witness :
  (∃ res h', _prepare_options no_str 0 None "us-central1"
               (one_request "post" "/v1/messages" JNone) = Returns res h')
  ∨ (∃ e h', _prepare_options no_str 0 None "us-central1"
               (one_request "post" "/v1/messages" JNone) = Raises e h'
             ∧ (e = RuntimeError NO_PROJECT_ID ∨ e = RuntimeError NOT_A_DICT
                ∨ e = KeyError "model" ∨ e = AnthropicError NO_BATCH_API)).
Proof.
  apply (prepare_options_errors no_str (one_request "post" "/v1/messages" JNone) 0
           "post" "/v1/messages" JNone None "us-central1").
  reflexivity.
Defined.

(** ** What the message-creation rule does to the body *)

(** X4.  The message-creation rewrite touches two keys only: every key of the
    input's dict other than ["model"] and ["anthropic_version"] has in the
    returned body the value it had, and a key the input lacked is still
    missing. *)
Theorem messages_body_other_keys str_of h i u d x p r :
  request_at h i = Some ("post", u, JDict d) →
  u = "/v1/messages" ∨ u = "/v1/messages?beta=true" →
  d !! "model" = Some x →
  ∃ h' res u' d',
    _prepare_options str_of i (Some p) r h = Returns res h' ∧
    request_at h' res = Some ("post", u', JDict d') ∧
    ∀ k, k ≠ "model" → k ≠ "anthropic_version" → d' !! k = d !! k.
Proof.
  intros Hreq Hu Hmodel.
  rewrite (prepare_options_run _ _ _ _ _ _ _ _ Hreq), (endpoint_test _ _ Hu).
  destruct (stamped_dict d) as (d1 & Hd1 & _ & Hk). rewrite Hd1.
  rewrite Hk, Hmodel by done. cbn [String.eqb Ascii.eqb Bool.eqb andb].
  eexists _, _, _, _. split; [reflexivity|]. split; [apply request_at_new|].
  intros k Hk1 Hk2. by rewrite lookup_delete_ne, Hk.
Qed.

Lemma messages_body_other_keys_witness :
  ∃ h' res u' d',
    _prepare_options no_str 0 (Some "p") "us-central1"
      (one_request "post" "/v1/messages" create_body) = Returns res h' ∧
    request_at h' res = Some ("post", u', JDict d') ∧
    ∀ k, k ≠ "model" → k ≠ "anthropic_version" → d' !! k = create_fields !! k.
Proof.
  apply (messages_body_other_keys no_str (one_request "post" "/v1/messages" create_body) 0
           "/v1/messages" create_fields (JStr "claude-3") "p" "us-central1").
  - reflexivity.
  - left; reflexivity.
  - vm_compute; reflexivity.
Defined.

(** ** The returned request *)

(** A returned request is one that no rule matches and whose body
    stamping leaves alone. *)
Lemma returned_request str_of h i m u b pid r res h' :
  request_at h i = Some (m, u, b) →
  _prepare_options str_of i pid r h = Returns res h' →
  ∃ u' b',
    res = length (options_objs h) ∧ h' = grown h m u' b'
    ∧ str_in u' MESSAGES_URLS && (m =? "post") = false
    ∧ str_in u' COUNT_TOKENS_URLS && (m =? "post") = false
    ∧ String.prefix BATCHES_PREFIX u' = false
    ∧ stamped b' = b'.
Proof.
  intros Hreq Hrun. rewrite (prepare_options_run _ _ _ _ _ _ _ _ Hreq) in Hrun.
  destruct (str_in u MESSAGES_URLS && (m =? "post")) eqn:E1.
  - destruct pid as [p|]; [|done].
    destruct (stamped b) as [| | | | | |d1] eqn:Eb; try done.
    destruct (d1 !! "model") as [x|] eqn:Ex; [|done].
    injection Hrun as <- <-. eexists _, _. repeat split.
    assert (Hv : is_Some (d1 !! "anthropic_version")).
    { destruct b; try discriminate.
      destruct (stamped_dict d) as (d2 & Hd2 & Hv & _).
      rewrite Hd2 in Eb. apply JDict_inj in Eb as ->. by rewrite Hv. }
    destruct Hv as [v Hv]. unfold stamped. by rewrite lookup_delete_ne, Hv.
  - destruct (str_in u COUNT_TOKENS_URLS && (m =? "post")) eqn:E2.
    + destruct pid as [p|]; [|done]. injection Hrun as <- <-.
      eexists _, _. repeat split. apply stamped_stamped.
    + destruct (String.prefix BATCHES_PREFIX u) eqn:E3; [done|].
      injection Hrun as <- <-. eexists _, _. repeat split; try done.
      apply stamped_stamped.
Qed.

(** X6.  Whatever comes back has been routed: its URL does not begin with
    ["/v1/messages/batches"], and if its method is ["post"] its URL is
    none of the four endpoint URLs, so no POST leaves the rewriter with
    the message-creation or count-tokens path still in place. *)
Theorem returned_url_is_routed str_of h i m u b pid r res h' :
  request_at h i = Some (m, u, b) →
  _prepare_options str_of i pid r h = Returns res h' →
  ∃ u' b',
    request_at h' res = Some (m, u', b') ∧
    String.prefix "/v1/messages/batches" u' = false ∧
    (m = "post" →
     u' ≠ "/v1/messages" ∧ u' ≠ "/v1/messages?beta=true"
     ∧ u' ≠ "/v1/messages/count_tokens" ∧ u' ≠ "/v1/messages/count_tokens?beta=true").
Proof.
  intros Hreq Hrun.
  destruct (returned_request _ _ _ _ _ _ _ _ _ _ Hreq Hrun)
    as (u' & b' & -> & -> & H1 & H2 & H3 & _).
  exists u', b'. split; [apply request_at_new|]. split; [exact H3|].
  intros ->. rewrite andb_true_r in H1, H2.
  unfold str_in, MESSAGES_URLS, COUNT_TOKENS_URLS in H1, H2. cbn [existsb] in H1, H2.
  rewrite !orb_false_r in H1, H2.
  apply orb_false_elim in H1 as [Ha Hb], H2 as [Hc Hd].
  by apply String.eqb_neq in Ha, Hb, Hc, Hd.
Qed.

Lemma returned_url_is_routed_witness :
  ∃ u' b',
    request_at
      (mkHeap
         [mkOptions "post" "/v1/messages/count_tokens" 0;
          mkOptions "post"
            "/projects/p/locations/us-central1/publishers/anthropic/models/count-tokens:rawPredict" 1]
         [JNone; JNone]) 1 = Some ("post", u', b') ∧
    String.prefix "/v1/messages/batches" u' = false ∧
    ("post" = "post" →
     u' ≠ "/v1/messages" ∧ u' ≠ "/v1/messages?beta=true"
     ∧ u' ≠ "/v1/messages/count_tokens" ∧ u' ≠ "/v1/messages/count_tokens?beta=true").
Proof.
  apply (returned_url_is_routed no_str
           (one_request "post" "/v1/messages/count_tokens" JNone) 0
           "post" "/v1/messages/count_tokens" JNone (Some "p") "us-central1").
  - reflexivity.
  - reflexivity.
Defined.

(** X7.  Rewriting what was returned changes nothing more: a second run, on
    the result of the first and with any project id and region, returns a
    request with the same method, URL and body. *)
Theorem rewrite_again_is_identity str_of h i m u b pid r res h' pid2 r2 :
  request_at h i = Some (m, u, b) →
  _prepare_options str_of i pid r h = Returns res h' →
  ∃ res2 h2,
    _prepare_options str_of res pid2 r2 h' = Returns res2 h2 ∧
    request_at h2 res2 = request_at h' res.
Proof.
  intros Hreq Hrun.
  destruct (returned_request _ _ _ _ _ _ _ _ _ _ Hreq Hrun)
    as (u' & b' & -> & -> & H1 & H2 & H3 & Hb').
  pose proof (request_at_new (options_objs h) (body_objs h) m u' b') as Hnew.
  rewrite (prepare_options_run _ _ _ _ _ _ _ _ Hnew), H1, H2, H3, Hb'.
  eexists _, _. split; [reflexivity|]. by rewrite request_at_new, Hnew.
Qed.

Lemma rewrite_again_is_identity_witness :
  ∃ res2 h2,
    _prepare_options no_str 1 None "europe-west1"
      (mkHeap
         [mkOptions "post" "/v1/messages" 0;
          mkOptions "post"
            "/projects/p/locations/us-central1/publishers/anthropic/models/claude-3:rawPredict" 1]
         [create_body;
          JDict (<["anthropic_version" := JStr "vertex-2023-10-16"]>
                   (<["stream" := JBool false]> ∅))])
    = Returns res2 h2 ∧
    request_at h2 res2
    = request_at
        (mkHeap
           [mkOptions "post" "/v1/messages" 0;
            mkOptions "post"
              "/projects/p/locations/us-central1/publishers/anthropic/models/claude-3:rawPredict" 1]
           [create_body;
            JDict (<["anthropic_version" := JStr "vertex-2023-10-16"]>
                     (<["stream" := JBool false]> ∅))]) 1.
Proof.
  apply (rewrite_again_is_identity no_str (one_request "post" "/v1/messages" create_body) 0
           "post" "/v1/messages" create_body (Some "p") "us-central1" 1 _ None "europe-west1").
  - reflexivity.
  - vm_compute; reflexivity.
Defined.

End RewriteCases.

(** * Further properties of the credential resolver *)

Module AuthCases.
Import Store Auth Examples Client.
Local Open Scope list_scope.

(** ** One call on a client that holds a handle *)

Lemma ensure_held w self c :
  access_token self = None → credentials self = Some c →
  run w (_ensure_access_token self) =
  if expired c || negb (str_truthy (token c)) then
    ([EvRefresh c],
     (set_credentials self (Some (on_refresh w c).1),
      match (on_refresh w c).2 with
      | Some e => inl e
      | None => checked (on_refresh w c).1
      end))
  else ([], (self, checked c)).
Proof.
  intros Ha Hc. destruct self as [rg cache tok creds bu]. cbn in Ha, Hc. subst.
  unfold _ensure_access_token, checked. cbn.
  destruct (expired c || negb (str_truthy (token c))); cbn.
  - destruct (on_refresh w c) as [c' [e|]]; cbn; [reflexivity|].
    destruct (token c') as [t|]; [destruct (negb (t =? ""))|]; reflexivity.
  - destruct (token c) as [t|]; [destruct (negb (t =? ""))|]; reflexivity.
Qed.

(** ** One call on a client that holds no handle *)

Lemma ensure_unheld w self :
  access_token self = None → credentials self = None →
  run w (_ensure_access_token self) =
  let '(tr0, (self0, pid)) := run w (project_id self) in
  match on_load w pid with
  | inl e => (tr0 ++ [EvLoad pid], (self0, inl e))
  | inr (c, loaded) =>
      let self1 :=
        if negb (str_truthy pid)
        then set_project_id (set_credentials self0 (Some c)) loaded
        else set_credentials self0 (Some c) in
      let '(tr1, res) := run w (_ensure_access_token self1) in
      (tr0 ++ EvLoad pid :: tr1, res)
  end.
Proof.
  intros Ha Hc. destruct self as [rg cache tok creds bu]. cbn in Ha, Hc. subst.
  unfold _ensure_access_token, project_id. cbn.
  destruct cache as [v|]; cbn.
  - destruct (on_load w v) as [e|[c loaded]]; cbn; [reflexivity|].
    destruct (negb (str_truthy v)); cbn;
      destruct (expired c || negb (str_truthy (token c))); cbn;
      try (destruct (on_refresh w c) as [c' [e|]]; cbn; [reflexivity|]);
      repeat match goal with
             | |- context [token ?x] => destruct (token x) as [t|]; cbn
             | |- context [negb (?t =? "")] => destruct (negb (t =? "")); cbn
             end; reflexivity.
  - set (v := if str_truthy (environ w "ANTHROPIC_VERTEX_PROJECT_ID")
              then environ w "ANTHROPIC_VERTEX_PROJECT_ID" else None).
    destruct (on_load w v) as [e|[c loaded]]; cbn; [reflexivity|].
    destruct (negb (str_truthy v)); cbn;
      destruct (expired c || negb (str_truthy (token c))); cbn;
      try (destruct (on_refresh w c) as [c' [e|]]; cbn; [reflexivity|]);
      repeat match goal with
             | |- context [token ?x] => destruct (token x) as [t|]; cbn
             | |- context [negb (?t =? "")] => destruct (negb (t =? "")); cbn
             end; reflexivity.
Qed.

(** ** When the refresher runs *)

(** X8.  On a client without a static token that holds a handle, a call asks
    the refresher exactly when the handle is expired or has no token (an
    empty one included), once and with that handle; it asks nothing
    else. *)
Theorem refresh_when_stale w self c :
  access_token self = None → credentials self = Some c →
  (run w (_ensure_access_token self)).1
  = if expired c || negb (str_truthy (token c)) then [EvRefresh c] else [].
Proof.
  intros Ha Hc. rewrite (ensure_held w self c Ha Hc).
  by destruct (expired c || negb (str_truthy (token c))).
Qed.

Lemma refresh_when_stale_witness :
  (run gcloud (_ensure_access_token
                 (mkClient "us-central1" None None (Some (mkCredentials true (Some "old")))
                    "https://us-central1-aiplatform.googleapis.com/v1"))).1
  = [EvRefresh (mkCredentials true (Some "old"))].
Proof.
  apply (refresh_when_stale gcloud
           (mkClient "us-central1" None None (Some (mkCredentials true (Some "old")))
              "https://us-central1-aiplatform.googleapis.com/v1")
           (mkCredentials true (Some "old"))).
  - reflexivity.
  - reflexivity.
Defined.

(** X9.  A refresh that leaves the handle without a token ends the call with
    the "Could not resolve API token" [RuntimeError]; the handle is kept
    in its refreshed state and the refresher was asked once only. *)
Theorem refresh_without_token_fails w self c c' :
  access_token self = None → credentials self = Some c →
  expired c || negb (str_truthy (token c)) = true →
  on_refresh w c = (c', None) →
  str_truthy (token c') = false →
  run w (_ensure_access_token self)
  = ([EvRefresh c],
     (set_credentials self (Some c'),
      inl (RuntimeError "Could not resolve API token from the environment"))).
Proof.
  intros Ha Hc Hstale Hr Ht. rewrite (ensure_held w self c Ha Hc), Hstale, Hr. cbn.
  unfold checked. destruct (token c') as [t|]; [|reflexivity].
  cbn in Ht. by rewrite Ht.
Qed.

Lemma refresh_without_token_fails_witness :
  run (mkWorld (λ _, None) (on_load gcloud) (λ c, (mkCredentials false (Some ""), None)))
    (_ensure_access_token
       (mkClient "us-central1" None None (Some (mkCredentials true None))
          "https://us-central1-aiplatform.googleapis.com/v1"))
  = ([EvRefresh (mkCredentials true None)],
     (set_credentials
        (mkClient "us-central1" None None (Some (mkCredentials true None))
           "https://us-central1-aiplatform.googleapis.com/v1")
        (Some (mkCredentials false (Some ""))),
      inl (RuntimeError "Could not resolve API token from the environment"))).
Proof.
  apply (refresh_without_token_fails
           (mkWorld (λ _, None) (on_load gcloud) (λ c, (mkCredentials false (Some ""), None)))
           (mkClient "us-central1" None None (Some (mkCredentials true None))
              "https://us-central1-aiplatform.googleapis.com/v1")
           (mkCredentials true None) (mkCredentials false (Some ""))).
  - reflexivity.
  - reflexivity.
  - reflexivity.
  - reflexivity.
  - reflexivity.
Defined.

(** ** When the loader runs *)

Lemma ensure_keeps_handle w self c :
  credentials self = Some c →
  ∃ c', credentials (run w (_ensure_access_token self)).2.1 = Some c'.
Proof.
  intros Hc. destruct (access_token self) as [tok|] eqn:Ha.
  - unfold _ensure_access_token. rewrite Ha. cbn. eauto.
  - rewrite (ensure_held w self c Ha Hc).
    destruct (expired c || negb (str_truthy (token c))); cbn; eauto.
Qed.

Lemma ensure_held_trace w self c :
  credentials self = Some c →
  (run w (_ensure_access_token self)).1 = []
  ∨ (run w (_ensure_access_token self)).1 = [EvRefresh c].
Proof.
  intros Hc. destruct (access_token self) as [tok|] eqn:Ha.
  - unfold _ensure_access_token. rewrite Ha. by left.
  - rewrite (ensure_held w self c Ha Hc).
    destruct (expired c || negb (str_truthy (token c))); cbn; eauto.
Qed.

(** X10.  A client that holds a handle, given to the constructor or loaded by
    an earlier call, never asks the loader again and never reads the
    environment: in any sequence of calls each call asks nothing, or the
    refresher once. *)
Theorem held_handle_never_loads ws self c :
  credentials self = Some c →
  Forall (λ call, call.1 = [] ∨ ∃ c', call.1 = [EvRefresh c']) (calls ws self).2.
Proof.
  revert self c. induction ws as [|w ws IH]; intros self c Hc; [by constructor|].
  cbn [calls].
  pose proof (ensure_held_trace w self c Hc) as Htr.
  destruct (ensure_keeps_handle w self c Hc) as [c' Hc'].
  destruct (run w (_ensure_access_token self)) as [tr [self' res]].
  cbn in Htr, Hc'. specialize (IH self' c' Hc').
  destruct (calls ws self') as [self'' rs]. cbn in *.
  constructor; [|exact IH]. cbn. destruct Htr as [-> | ->]; eauto.
Qed.

Lemma held_handle_never_loads_witness :
  Forall (λ call, call.1 = [] ∨ ∃ c', call.1 = [EvRefresh c'])
    (calls [gcloud; gcloud]
       (mkClient "us-central1" None None (Some (mkCredentials true None))
          "https://us-central1-aiplatform.googleapis.com/v1")).2.
Proof.
  apply (held_handle_never_loads [gcloud; gcloud]
           (mkClient "us-central1" None None (Some (mkCredentials true None))
              "https://us-central1-aiplatform.googleapis.com/v1")
           (mkCredentials true None)).
  reflexivity.
Defined.

(** ** The project id property *)

Lemma project_id_run w self :
  run w (project_id self) =
  match project_id_cache self with
  | Some v => ([], (self, v))
  | None =>
      let v := if str_truthy (environ w "ANTHROPIC_VERTEX_PROJECT_ID")
               then environ w "ANTHROPIC_VERTEX_PROJECT_ID" else None in
      ([EvEnv "ANTHROPIC_VERTEX_PROJECT_ID"], (set_project_id self v, v))
  end.
Proof. unfold project_id. by destruct (project_id_cache self). Qed.

(** X11.  The project id is resolved once.  The first read of
    [self.project_id] gives the cached value if there is one, without
    looking at the environment; otherwise it reads
    [ANTHROPIC_VERTEX_PROJECT_ID] and gives its value, or [None] when the
    variable is unset or empty.  Every later read gives the same without
    looking at the environment, also after the environment has changed. *)
Theorem project_id_read_once w self tr self' v w2 :
  run w (project_id self) = (tr, (self', v)) →
  run w2 (project_id self') = ([], (self', v))
  ∧ match project_id_cache self with
    | Some cached => tr = [] ∧ v = cached
    | None =>
        tr = [EvEnv "ANTHROPIC_VERTEX_PROJECT_ID"] ∧
        v = match environ w "ANTHROPIC_VERTEX_PROJECT_ID" with
            | Some s => if (s =? "")%string then None else Some s
            | None => None
            end
    end.
Proof.
  rewrite project_id_run. intros H.
  destruct (project_id_cache self) as [v0|] eqn:Hc.
  - injection H as <- <- <-. split; [|done].
    by rewrite project_id_run, Hc.
  - cbn in H. injection H as <- <- <-. split.
    + by rewrite project_id_run.
    + split; [done|].
      destruct (environ w "ANTHROPIC_VERTEX_PROJECT_ID") as [s|]; [|done].
      cbn. by destruct (s =? "")%string.
Qed.

Lemma project_id_read_once_witness :
  run (mkWorld (λ _, Some "late-project") (on_load gcloud) (on_refresh gcloud))
    (project_id
       (mkClient "us-central1" (Some None) None None
          "https://us-central1-aiplatform.googleapis.com/v1"))
  = ([], (mkClient "us-central1" (Some None) None None
            "https://us-central1-aiplatform.googleapis.com/v1", None))
  ∧ ([EvEnv "ANTHROPIC_VERTEX_PROJECT_ID"] = [EvEnv "ANTHROPIC_VERTEX_PROJECT_ID"]
     ∧ (None : option string) = None).
Proof.
  refine (project_id_read_once
            (mkWorld (λ _, Some "") (on_load gcloud) (on_refresh gcloud))
            (mkClient "us-central1" None None None
               "https://us-central1-aiplatform.googleapis.com/v1")
            [EvEnv "ANTHROPIC_VERTEX_PROJECT_ID"]
            (mkClient "us-central1" (Some None) None None
               "https://us-central1-aiplatform.googleapis.com/v1")
            None
            (mkWorld (λ _, Some "late-project") (on_load gcloud) (on_refresh gcloud)) _).
  reflexivity.
Defined.

(** ** What a call leaves in the client *)

Lemma held_result w self c :
  access_token self = None → credentials self = Some c →
  project_id_cache (run w (_ensure_access_token self)).2.1 = project_id_cache self
  ∧ ∀ tok, (run w (_ensure_access_token self)).2.2 = inr tok →
           tok ≠ "" ∧ ∃ c', credentials (run w (_ensure_access_token self)).2.1 = Some c'
                            ∧ token c' = Some tok.
Proof.
  intros Ha Hc. rewrite (ensure_held w self c Ha Hc).
  assert (Hchk : ∀ c0 tok, checked c0 = inr tok → tok ≠ "" ∧ token c0 = Some tok).
  { unfold checked. intros c0 tok. destruct (token c0) as [t|]; [|done].
    destruct (negb (t =? "")) eqn:E; [|done]. intros [= ->].
    split; [|done]. intros ->. done. }
  destruct (expired c || negb (str_truthy (token c))); cbn.
  - split; [done|]. intros tok.
    destruct (on_refresh w c) as [c' [e|]]; cbn; [done|].
    intros H. apply Hchk in H as [? ?]. eauto.
  - split; [done|]. intros tok H. apply Hchk in H as [? ?]. eauto.
Qed.

(** X12.  A token that [_ensure_access_token] resolves from credentials is
    never empty, and it is the token of the handle the client holds when
    the call returns. *)
Theorem resolved_token_not_empty w self tr self' tok :
  access_token self = None →
  run w (_ensure_access_token self) = (tr, (self', inr tok)) →
  tok ≠ "" ∧ ∃ c, credentials self' = Some c ∧ token c = Some tok.
Proof.
  intros Ha Hrun. destruct (credentials self) as [c|] eqn:Hc.
  - destruct (held_result w self c Ha Hc) as [_ H]. rewrite Hrun in H. by apply H.
  - rewrite (ensure_unheld w self Ha Hc), project_id_run in Hrun.
    assert (Hset : ∀ s v, access_token (set_project_id s v) = access_token s) by done.
    destruct (project_id_cache self) as [v|]; cbn in Hrun.
    + destruct (on_load w v) as [e|[c loaded]]; [done|].
      match type of Hrun with
      | context [run w (_ensure_access_token ?s)] =>
          destruct (held_result w s c) as [_ H];
          [by destruct (negb (str_truthy v))
          |by destruct (negb (str_truthy v))|];
          destruct (run w (_ensure_access_token s)) as [tr1 [s1 r1]]
      end.
      cbn in H. injection Hrun as _ <- ->. by apply H.
    + match type of Hrun with
      | context [on_load w ?v] => set (v0 := v) in *
      end.
      destruct (on_load w v0) as [e|[c loaded]]; [done|].
      match type of Hrun with
      | context [run w (_ensure_access_token ?s)] =>
          destruct (held_result w s c) as [_ H];
          [by destruct (negb (str_truthy v0))
          |by destruct (negb (str_truthy v0))|];
          destruct (run w (_ensure_access_token s)) as [tr1 [s1 r1]]
      end.
      cbn in H. injection Hrun as _ <- ->. by apply H.
Qed.

Lemma resolved_token_not_empty_witness :
  "ya29.token" ≠ ""
  ∧ ∃ c, credentials
           (mkClient "us-central1" (Some (Some "loaded-project")) None
              (Some (mkCredentials false (Some "ya29.token")))
              "https://us-central1-aiplatform.googleapis.com/v1") = Some c
         ∧ token c = Some "ya29.token".
Proof.
  apply (resolved_token_not_empty gcloud
           (mkClient "us-central1" None None None
              "https://us-central1-aiplatform.googleapis.com/v1")
           [EvEnv "ANTHROPIC_VERTEX_PROJECT_ID"; EvLoad None]).
  - reflexivity.
  - reflexivity.
Defined.

(** ** Loading credentials *)

Lemma loaded_client w self :
  access_token self = None → credentials self = None →
  ∀ c loaded, on_load w (run w (project_id self)).2.2 = inr (c, loaded) →
  project_id_cache (run w (_ensure_access_token self)).2.1
  = if negb (str_truthy (run w (project_id self)).2.2) then Some loaded
    else Some (run w (project_id self)).2.2.
Proof.
  intros Ha Hc c loaded Hload.
  rewrite (ensure_unheld w self Ha Hc).
  rewrite project_id_run in *.
  destruct (project_id_cache self) as [v|] eqn:Hcache; cbn in *.
  - rewrite Hload.
    match goal with
    | |- context [run w (_ensure_access_token ?s)] =>
        destruct (held_result w s c) as [H _];
        [by destruct (negb (str_truthy v))
        |by destruct (negb (str_truthy v))|];
        destruct (run w (_ensure_access_token s)) as [tr1 [s1 r1]]
    end.
    cbn in *. rewrite H. destruct (negb (str_truthy v)); cbn; [done|by rewrite Hcache].
  - match goal with
    | H : context [on_load w ?v] |- _ => set (v0 := v) in *
    end.
    rewrite Hload.
    match goal with
    | |- context [run w (_ensure_access_token ?s)] =>
        destruct (held_result w s c) as [H _];
        [by destruct (negb (str_truthy v0))
        |by destruct (negb (str_truthy v0))|];
        destruct (run w (_ensure_access_token s)) as [tr1 [s1 r1]]
    end.
    cbn in *. rewrite H. by destruct (negb (str_truthy v0)).
Qed.

(** X13.  A client without a static token, a handle or a project id (none
    given or an empty one, none in the environment) takes the project id
    that the loader returns, [None] included, when a call loads
    credentials. *)
Theorem loader_project_id_adopted w self c loaded :
  access_token self = None → credentials self = None →
  str_truthy (run w (project_id self)).2.2 = false →
  on_load w (run w (project_id self)).2.2 = inr (c, loaded) →
  project_id_cache (run w (_ensure_access_token self)).2.1 = Some loaded.
Proof.
  intros Ha Hc Hp Hload. rewrite (loaded_client w self Ha Hc c loaded Hload).
  by rewrite Hp.
Qed.

Lemma loader_project_id_adopted_witness :
  project_id_cache
    (run gcloud (_ensure_access_token
                   (mkClient "us-central1" None None None
                      "https://us-central1-aiplatform.googleapis.com/v1"))).2.1
  = Some (Some "loaded-project").
Proof.
  apply (loader_project_id_adopted gcloud
           (mkClient "us-central1" None None None
              "https://us-central1-aiplatform.googleapis.com/v1")
           (mkCredentials false (Some "ya29.token")) (Some "loaded-project")).
  - reflexivity.
  - reflexivity.
  - reflexivity.
  - reflexivity.
Defined.

(** X14.  A project id found in the environment counts like an explicit one:
    when [ANTHROPIC_VERTEX_PROJECT_ID] is set and not empty and nothing
    was cached, the loader is asked with it and its own project id is
    dropped. *)
Theorem environment_project_id_wins w self p c loaded :
  access_token self = None → credentials self = None →
  project_id_cache self = None →
  environ w "ANTHROPIC_VERTEX_PROJECT_ID" = Some p → p ≠ "" →
  on_load w (Some p) = inr (c, loaded) →
  project_id_cache (run w (_ensure_access_token self)).2.1 = Some (Some p)
  ∧ EvLoad (Some p) ∈ (run w (_ensure_access_token self)).1.
Proof.
  intros Ha Hc Hcache Henv Hp Hload.
  assert (Hpid : (run w (project_id self)).2.2 = Some p).
  { rewrite project_id_run, Hcache, Henv. cbn.
    by apply String.eqb_neq in Hp as ->. }
  split.
  - rewrite (loaded_client w self Ha Hc c loaded); rewrite Hpid; [|done].
    cbn. by apply String.eqb_neq in Hp as ->.
  - rewrite (ensure_unheld w self Ha Hc).
    destruct (run w (project_id self)) as [tr0 [self0 pid]]. cbn in Hpid. subst pid.
    rewrite Hload. cbv zeta.
    match goal with
    | |- context [run w (_ensure_access_token ?s)] =>
        destruct (run w (_ensure_access_token s)) as [tr1 res]
    end.
    cbn. apply elem_of_app. right. by left.
Qed.

Lemma environment_project_id_wins_witness :
  project_id_cache
    (run (mkWorld (λ _, Some "env-project") (on_load gcloud) (on_refresh gcloud))
       (_ensure_access_token
          (mkClient "us-central1" None None None
             "https://us-central1-aiplatform.googleapis.com/v1"))).2.1
  = Some (Some "env-project")
  ∧ EvLoad (Some "env-project")
    ∈ (run (mkWorld (λ _, Some "env-project") (on_load gcloud) (on_refresh gcloud))
         (_ensure_access_token
            (mkClient "us-central1" None None None
               "https://us-central1-aiplatform.googleapis.com/v1"))).1.
Proof.
  apply (environment_project_id_wins
           (mkWorld (λ _, Some "env-project") (on_load gcloud) (on_refresh gcloud))
           (mkClient "us-central1" None None None
              "https://us-central1-aiplatform.googleapis.com/v1")
           "env-project" (mkCredentials false (Some "ya29.token")) (Some "loaded-project")).
  - reflexivity.
  - reflexivity.
  - reflexivity.
  - reflexivity.
  - discriminate.
  - reflexivity.
Defined.

(** X15.  When the loader raises, the call ends with that exception, the
    refresher is not asked, and the client still holds no handle: the
    next call asks the loader again. *)
Theorem load_failure_keeps_unloaded w self e :
  access_token self = None → credentials self = None →
  on_load w (run w (project_id self)).2.2 = inl e →
  (run w (_ensure_access_token self)).2.2 = inl e
  ∧ credentials (run w (_ensure_access_token self)).2.1 = None
  ∧ (∀ c, EvRefresh c ∉ (run w (_ensure_access_token self)).1).
Proof.
  intros Ha Hc Hload. rewrite (ensure_unheld w self Ha Hc).
  rewrite project_id_run in *.
  destruct (project_id_cache self) as [v|]; cbn in *; rewrite Hload; cbn.
  - split; [done|]. split; [done|]. intros c Hin.
    apply list_elem_of_singleton in Hin. done.
  - split; [done|]. split; [by destruct self|]. intros c Hin.
    apply elem_of_cons in Hin as [Hin | Hin]; [done|].
    apply list_elem_of_singleton in Hin. done.
Qed.

Lemma load_failure_keeps_unloaded_witness :
  (run (mkWorld (λ _, None) (λ _, inl (ValueError "no credentials")) (on_refresh gcloud))
     (_ensure_access_token
        (mkClient "us-central1" None None None
           "https://us-central1-aiplatform.googleapis.com/v1"))).2.2
  = inl (ValueError "no credentials")
  ∧ credentials
      (run (mkWorld (λ _, None) (λ _, inl (ValueError "no credentials")) (on_refresh gcloud))
         (_ensure_access_token
            (mkClient "us-central1" None None None
               "https://us-central1-aiplatform.googleapis.com/v1"))).2.1 = None
  ∧ (∀ c, EvRefresh c
          ∉ (run (mkWorld (λ _, None) (λ _, inl (ValueError "no credentials"))
                    (on_refresh gcloud))
               (_ensure_access_token
                  (mkClient "us-central1" None None None
                     "https://us-central1-aiplatform.googleapis.com/v1"))).1).
Proof.
  apply (load_failure_keeps_unloaded
           (mkWorld (λ _, None) (λ _, inl (ValueError "no credentials")) (on_refresh gcloud))
           (mkClient "us-central1" None None None
              "https://us-central1-aiplatform.googleapis.com/v1")
           (ValueError "no credentials")).
  - reflexivity.
  - reflexivity.
  - reflexivity.
Defined.

(** ** Construction *)

Lemma append_assoc (s1 s2 s3 : string) : s1 +:+ s2 +:+ s3 = (s1 +:+ s2) +:+ s3.
Proof.
  induction s1 as [|a s1 IH]; [done|].
  change (String a (s1 +:+ s2 +:+ s3) = String a ((s1 +:+ s2) +:+ s3)).
  by rewrite IH.
Qed.

(** X16.  When [region] is not given and [CLOUD_ML_REGION] is not in the
    environment, the constructor raises the "No region was given"
    [ValueError], whatever its other arguments, having read nothing else.
    Otherwise the region of a client that gets constructed is the given
    one, or else the value of [CLOUD_ML_REGION], an empty string
    included. *)
Theorem init_region w args :
  match arg_region args, environ w "CLOUD_ML_REGION" with
  | None, None =>
      run w (__init__ args)
      = ([EvEnv "CLOUD_ML_REGION"],
         inl (ValueError
                "No region was given. The client should be instantiated with the `region` argument or the `CLOUD_ML_REGION` environment variable should be set."))
  | Some rg, _ | None, Some rg =>
      ∀ tr self, run w (__init__ args) = (tr, inr self) → region self = rg
  end.
Proof.
  unfold __init__.
  destruct (arg_region args) as [rg|]; cbn.
  - intros tr self H.
    destruct (arg_base_url args) as [bu|]; cbn in H; by injection H as _ <-.
  - destruct (environ w "CLOUD_ML_REGION") as [rg|]; cbn; [|reflexivity].
    intros tr self H.
    destruct (arg_base_url args) as [bu|]; cbn in H; by injection H as _ <-.
Qed.

(** X17.  Without a [base_url] argument and without [ANTHROPIC_VERTEX_BASE_URL]
    the base URL is derived from the region: the host is
    ["aiplatform.googleapis.com"] for the region ["global"] and
    ["{region}-aiplatform.googleapis.com"] for every other. *)
Theorem init_default_base_url w args tr self :
  run w (__init__ args) = (tr, inr self) →
  arg_base_url args = None →
  environ w "ANTHROPIC_VERTEX_BASE_URL" = None →
  base_url self
  = if (region self =? "global")%string
    then "https://aiplatform.googleapis.com/v1"
    else "https://" +:+ region self +:+ "-aiplatform.googleapis.com/v1".
Proof.
  unfold __init__. intros H Hbu Henv. rewrite Hbu in H.
  assert (Hurl : ∀ rg, default_base_url rg
                       = if (rg =? "global")%string
                         then "https://aiplatform.googleapis.com/v1"
                         else "https://" +:+ rg +:+ "-aiplatform.googleapis.com/v1").
  { intros rg. unfold default_base_url. destruct (rg =? "global")%string; [done|].
    cbn. by rewrite <- append_assoc. }
  destruct (arg_region args) as [rg|]; cbn in H.
  - rewrite Henv in H. cbn in H. injection H as <- <-. cbn. apply Hurl.
  - destruct (environ w "CLOUD_ML_REGION") as [rg|]; cbn in H; [|done].
    rewrite Henv in H. cbn in H. injection H as <- <-. cbn. apply Hurl.
Qed.

Lemma init_default_base_url_witness :
  base_url (mkClient "global" None None None "https://aiplatform.googleapis.com/v1")
  = "https://aiplatform.googleapis.com/v1".
Proof.
  apply (init_default_base_url gcloud (mkArgs (Some "global") None None None None)
           [EvEnv "ANTHROPIC_VERTEX_BASE_URL"]).
  - reflexivity.
  - reflexivity.
  - reflexivity.
Defined.

End AuthCases.

(** * Properties of the client's methods *)

Module ClientProps.
Import Json Store Auth Examples Client RewriteProps RewriteCases AuthCases.
Local Open Scope list_scope.

Lemma run_bind {A B} w (p : prog A) (k : A → prog B) :
  run w (p ≫= k) = ((run w p).1 ++ (run w (k (run w p).2)).1, (run w (k (run w p).2)).2).
Proof.
  change (p ≫= k) with (prog_bind p k).
  induction p as [a|name f IH|pid f IH|c f IH]; cbn [prog_bind run].
  - cbn. destruct (run w (k a)); reflexivity.
  - rewrite IH. destruct (run w (f (environ w name))) as [tr1 a1]. cbn.
    destruct (run w (k a1)); reflexivity.
  - rewrite IH. destruct (run w (f (on_load w pid))) as [tr1 a1]. cbn.
    destruct (run w (k a1)); reflexivity.
  - rewrite IH. destruct (run w (f (on_refresh w c))) as [tr1 a1]. cbn.
    destruct (run w (k a1)); reflexivity.
Qed.

(** ** [_prepare_request] *)

(** X19.  A request without an [Authorization] header, or with an empty one,
    gets ["Bearer "] followed by the token that [_ensure_access_token]
    returns; the empty header is overwritten, every other header stays. *)
Theorem request_gets_bearer w self request tr self' tok :
  str_truthy (headers_get request "Authorization") = false →
  run w (_ensure_access_token self) = (tr, (self', inr tok)) →
  ∃ request',
    run w (_prepare_request self request) = (tr, (self', request', None)) ∧
    headers_get request' "Authorization" = Some ("Bearer " +:+ tok) ∧
    ∀ k, k ≠ "authorization" → headers request' !! k = headers request !! k.
Proof.
  intros Hh Hrun. unfold _prepare_request. rewrite Hh, run_bind, Hrun. cbn.
  eexists. split; [by rewrite app_nil_r|]. split.
  - unfold headers_get, headers_set. cbn. by rewrite lookup_insert_eq.
  - intros k Hk. unfold headers_set. cbn. by rewrite lookup_insert_ne.
Qed.

Lemma request_gets_bearer_witness :
  ∃ request',
    run gcloud (_prepare_request
                  (mkClient "us-central1" None (Some "static") None
                     "https://us-central1-aiplatform.googleapis.com/v1")
                  (mkRequest {[ "authorization" := "" ]}))
    = ([], (mkClient "us-central1" None (Some "static") None
              "https://us-central1-aiplatform.googleapis.com/v1", request', None)) ∧
    headers_get request' "Authorization" = Some "Bearer static" ∧
    ∀ k, k ≠ "authorization" →
         headers request' !! k = headers (mkRequest {[ "authorization" := "" ]}) !! k.
Proof.
  apply (request_gets_bearer gcloud
           (mkClient "us-central1" None (Some "static") None
              "https://us-central1-aiplatform.googleapis.com/v1")
           (mkRequest {[ "authorization" := "" ]}) []
           (mkClient "us-central1" None (Some "static") None
              "https://us-central1-aiplatform.googleapis.com/v1") "static").
  - reflexivity.
  - reflexivity.
Defined.

(** X20.  When no token can be had, the exception of [_ensure_access_token]
    comes out of [_prepare_request] and the request keeps the headers it
    had: no half-authenticated request is left behind. *)
Theorem failed_auth_leaves_request w self request tr self' e :
  str_truthy (headers_get request "Authorization") = false →
  run w (_ensure_access_token self) = (tr, (self', inl e)) →
  run w (_prepare_request self request) = (tr, (self', request, Some e)).
Proof.
  intros Hh Hrun. unfold _prepare_request. rewrite Hh, run_bind, Hrun. cbn.
  by rewrite app_nil_r.
Qed.

Lemma failed_auth_leaves_request_witness :
  run (mkWorld (λ _, None) (λ _, inl (ValueError "no credentials")) (on_refresh gcloud))
    (_prepare_request
       (mkClient "us-central1" (Some None) None None
          "https://us-central1-aiplatform.googleapis.com/v1")
       (mkRequest ∅))
  = ([EvLoad None],
     (mkClient "us-central1" (Some None) None None
        "https://us-central1-aiplatform.googleapis.com/v1",
      mkRequest ∅, Some (ValueError "no credentials"))).
Proof.
  apply (failed_auth_leaves_request
           (mkWorld (λ _, None) (λ _, inl (ValueError "no credentials")) (on_refresh gcloud))).
  - reflexivity.
  - reflexivity.
Defined.

(** X21.  A request that [_prepare_request] has handled without an exception
    is authenticated for good: handling it again, by any client in any
    world, asks nothing and changes nothing. *)
Theorem prepared_request_stays w self request tr self' request' w2 self2 :
  run w (_prepare_request self request) = (tr, (self', request', None)) →
  run w2 (_prepare_request self2 request') = ([], (self2, request', None)).
Proof.
  intros Hrun.
  assert (Hset : str_truthy (headers_get request' "Authorization") = true).
  { unfold _prepare_request in Hrun.
    destruct (str_truthy (headers_get request "Authorization")) eqn:Hh.
    - cbn in Hrun. by injection Hrun as _ _ <-.
    - rewrite run_bind in Hrun.
      destruct (run w (_ensure_access_token self)) as [tr1 [self1 [e|tok]]];
        cbn in Hrun; [done|].
      injection Hrun as _ _ <-. unfold headers_get, headers_set. cbn.
      by rewrite lookup_insert_eq. }
  unfold _prepare_request. by rewrite Hset.
Qed.

Lemma prepared_request_stays_witness :
  run gcloud
    (_prepare_request
       (mkClient "europe-west1" None None None
          "https://europe-west1-aiplatform.googleapis.com/v1")
       (mkRequest {[ "authorization" := "Bearer ya29.token" ]}))
  = ([], (mkClient "europe-west1" None None None
            "https://europe-west1-aiplatform.googleapis.com/v1",
          mkRequest {[ "authorization" := "Bearer ya29.token" ]}, None)).
Proof.
  apply (prepared_request_stays gcloud
           (mkClient "us-central1" (Some None) None None
              "https://us-central1-aiplatform.googleapis.com/v1")
           (mkRequest ∅) [EvLoad None]
           (mkClient "us-central1" (Some (Some "loaded-project")) None
              (Some (mkCredentials false (Some "ya29.token")))
              "https://us-central1-aiplatform.googleapis.com/v1")).
  vm_compute. reflexivity.
Defined.

(** ** The [_prepare_options] method *)

Lemma method_run str_of w self options :
  run w (Client._prepare_options str_of self options)
  = ((run w (project_id self)).1,
     ((run w (project_id self)).2.1,
      Rewrite._prepare_options str_of options (run w (project_id self)).2.2
        (region (run w (project_id self)).2.1))).
Proof.
  unfold Client._prepare_options. rewrite run_bind.
  destruct (run w (project_id self)) as [tr [self' pid]]. cbn. by rewrite app_nil_r.
Qed.

(** X22.  Rewriting does not wait for credentials.  On a client with no
    project id (none given, the environment variable unset or empty) a
    POST to a message-creation or count-tokens URL fails with the
    missing-project-id error; the loader, which might know the project,
    is not asked, and the client remembers that there is none. *)
Theorem rewrite_never_loads str_of w self h i u b :
  project_id_cache self = None →
  str_truthy (environ w "ANTHROPIC_VERTEX_PROJECT_ID") = false →
  request_at h i = Some ("post", u, b) →
  u = "/v1/messages" ∨ u = "/v1/messages?beta=true"
  ∨ u = "/v1/messages/count_tokens" ∨ u = "/v1/messages/count_tokens?beta=true" →
  ∃ self' rewrite h',
    run w (Client._prepare_options str_of self i)
      = ([EvEnv "ANTHROPIC_VERTEX_PROJECT_ID"], (self', rewrite)) ∧
    rewrite h = Raises (RuntimeError Rewrite.NO_PROJECT_ID) h' ∧
    project_id_cache self' = Some None.
Proof.
  intros Hc Henv Hreq Hu.
  rewrite method_run, project_id_run, Hc, Henv. cbn.
  eexists _, _, _. split; [reflexivity|]. split; [|reflexivity].
  rewrite (prepare_options_run _ _ _ _ _ _ _ _ Hreq).
  destruct Hu as [-> | [-> | [-> | ->]]]; reflexivity.
Qed.

Lemma rewrite_never_loads_witness :
  ∃ self' rewrite h',
    run gcloud
      (Client._prepare_options no_str
         (mkClient "us-central1" None None None
            "https://us-central1-aiplatform.googleapis.com/v1") 0)
      = ([EvEnv "ANTHROPIC_VERTEX_PROJECT_ID"], (self', rewrite)) ∧
    rewrite (one_request "post" "/v1/messages" create_body)
      = Raises (RuntimeError Rewrite.NO_PROJECT_ID) h' ∧
    project_id_cache self' = Some None.
Proof.
  apply (rewrite_never_loads no_str gcloud
           (mkClient "us-central1" None None None
              "https://us-central1-aiplatform.googleapis.com/v1")
           (one_request "post" "/v1/messages" create_body) 0 "/v1/messages" create_body).
  - reflexivity.
  - reflexivity.
  - reflexivity.
  - left; reflexivity.
Defined.

Lemma ensure_keeps_region w self :
  region (run w (_ensure_access_token self)).2.1 = region self.
Proof.
  destruct (access_token self) as [tok|] eqn:Ha.
  { unfold _ensure_access_token. by rewrite Ha. }
  assert (Hheld : ∀ s c, access_token s = None → credentials s = Some c →
                         region (run w (_ensure_access_token s)).2.1 = region s).
  { intros s c Hs Hc. rewrite (ensure_held w s c Hs Hc).
    by destruct (expired c || negb (str_truthy (token c))). }
  destruct (credentials self) as [c|] eqn:Hc; [by eapply Hheld|].
  rewrite (ensure_unheld w self Ha Hc), project_id_run.
  destruct (project_id_cache self) as [v|]; cbn.
  - destruct (on_load w v) as [e|[c loaded]]; [done|]. cbv zeta.
    match goal with
    | |- context [run w (_ensure_access_token ?s)] =>
        pose proof (Hheld s c) as H;
        destruct (run w (_ensure_access_token s)) as [tr1 [s1 r1]]
    end.
    cbn in *. rewrite H; by destruct (negb (str_truthy v)).
  - match goal with
    | |- context [on_load w ?v] => set (v0 := v) in *
    end.
    destruct (on_load w v0) as [e|[c loaded]]; [done|]. cbv zeta.
    match goal with
    | |- context [run w (_ensure_access_token ?s)] =>
        pose proof (Hheld s c) as H;
        destruct (run w (_ensure_access_token s)) as [tr1 [s1 r1]]
    end.
    cbn in *. rewrite H; by destruct (negb (str_truthy v0)).
Qed.

(** X23.  Once a call of [_ensure_access_token] has loaded credentials on a
    client that had no project id, the project id that the loader
    returned is the one the rewriter puts into the URL, without any
    further question to the environment. *)
Theorem loaded_project_id_is_used str_of w self c p w2 h i u d m :
  access_token self = None → credentials self = None →
  str_truthy (run w (project_id self)).2.2 = false →
  on_load w (run w (project_id self)).2.2 = inr (c, Some p) →
  request_at h i = Some ("post", u, JDict d) →
  u = "/v1/messages" ∨ u = "/v1/messages?beta=true" →
  d !! "model" = Some (JStr m) →
  ∃ rewrite res h' verb d',
    run w2 (Client._prepare_options str_of (run w (_ensure_access_token self)).2.1 i)
      = ([], ((run w (_ensure_access_token self)).2.1, rewrite)) ∧
    rewrite h = Returns res h' ∧
    request_at h' res
      = Some ("post",
              "/projects/" +:+ p +:+ "/locations/" +:+ region self
                +:+ "/publishers/anthropic/models/" +:+ m +:+ ":" +:+ verb,
              JDict d').
Proof.
  intros Ha Hc Hp Hload Hreq Hu Hmodel.
  pose proof (loaded_client w self Ha Hc c (Some p) Hload) as Hcache.
  rewrite Hp in Hcache. cbn [negb] in Hcache.
  rewrite method_run, project_id_run, Hcache. cbn. rewrite ensure_keeps_region.
  destruct (stamped_dict d) as (d1 & Hd1 & _ & Hk).
  eexists _, _, _, _, _. split; [reflexivity|].
  rewrite (prepare_options_run _ _ _ _ _ _ _ _ Hreq), (endpoint_test _ _ Hu).
  rewrite Hd1, Hk, Hmodel by done. cbn [String.eqb Ascii.eqb Bool.eqb andb].
  split; [reflexivity|]. apply request_at_new.
Qed.

Lemma loaded_project_id_is_used_witness :
  ∃ rewrite res h' verb d',
    run gcloud
      (Client._prepare_options no_str
         (run gcloud (_ensure_access_token
                        (mkClient "us-central1" None None None
                           "https://us-central1-aiplatform.googleapis.com/v1"))).2.1 0)
      = ([], ((run gcloud (_ensure_access_token
                             (mkClient "us-central1" None None None
                                "https://us-central1-aiplatform.googleapis.com/v1"))).2.1,
              rewrite)) ∧
    rewrite (one_request "post" "/v1/messages" create_body) = Returns res h' ∧
    request_at h' res
      = Some ("post",
              "/projects/" +:+ "loaded-project" +:+ "/locations/" +:+ "us-central1"
                +:+ "/publishers/anthropic/models/" +:+ "claude-3" +:+ ":" +:+ verb,
              JDict d').
Proof.
  apply (loaded_project_id_is_used no_str gcloud
           (mkClient "us-central1" None None None
              "https://us-central1-aiplatform.googleapis.com/v1")
           (mkCredentials false (Some "ya29.token")) "loaded-project" gcloud
           (one_request "post" "/v1/messages" create_body) 0 "/v1/messages"
           create_fields "claude-3").
  - reflexivity.
  - reflexivity.
  - reflexivity.
  - reflexivity.
  - reflexivity.
  - left; reflexivity.
  - vm_compute; reflexivity.
Defined.

(** ** [copy] *)

Section CopyProps.
Context {Timeout HttpClient : Type}.
Implicit Types (base : base_attrs Timeout HttpClient) (a : copy_args Timeout HttpClient).

(** The project id that [copy] hands to the constructor. *)
Lemma copy_project_id_run w self a :
  run w (match cp_project_id a with
         | Some p => mret (self, Some p)
         | None =>
             '(self, p) ← project_id self;
             mret (self, if str_truthy p then p else None)
         end)
  = match cp_project_id a with
    | Some p => ([], (self, Some p))
    | None =>
        ((run w (project_id self)).1,
         ((run w (project_id self)).2.1,
          if str_truthy (run w (project_id self)).2.2
          then (run w (project_id self)).2.2 else None))
    end.
Proof.
  destruct (cp_project_id a) as [p|]; [reflexivity|].
  rewrite run_bind. destruct (run w (project_id self)) as [tr [s p]]. cbn.
  by rewrite app_nil_r.
Qed.

Lemma copy_run w self base a :
  both_given (cp_default_headers a) (cp_set_default_headers a) = false →
  both_given (cp_default_query a) (cp_set_default_query a) = false →
  ∃ tr self' pid kw,
    match cp_project_id a with
    | Some p => ([], (self, Some p))
    | None =>
        ((run w (project_id self)).1,
         ((run w (project_id self)).2.1,
          if str_truthy (run w (project_id self)).2.2
          then (run w (project_id self)).2.2 else None))
    end = (tr, (self', pid)) ∧
    run w (copy self base a)
    = (tr, (self',
            inr (kw,
                 mkClient (default (region self') (cp_region a))
                   (match pid with Some p => Some (Some p) | None => None end)
                   (if str_truthy (cp_access_token a) then cp_access_token a
                    else access_token self')
                   (match cp_credentials a with
                    | Some c => Some c
                    | None => credentials self'
                    end)
                   (match cp_base_url a with
                    | Some u => if negb (u =? "")%string then u else base_url self'
                    | None => base_url self'
                    end)))) ∧
    kw_default_headers kw
    = match cp_default_headers a, cp_set_default_headers a with
      | Some dh, _ => dh ∪ _custom_headers base
      | None, Some sh => sh
      | None, None => _custom_headers base
      end ∧
    kw_default_query kw
    = match cp_default_query a, cp_set_default_query a with
      | Some dq, _ => dq ∪ _custom_query base
      | None, Some sq => sq
      | None, None => _custom_query base
      end ∧
    kw_timeout kw = default (timeout base) (cp_timeout a) ∧
    kw_max_retries kw = default (max_retries base) (cp_max_retries a) ∧
    kw_http_client kw = default (_client base) (cp_http_client a).
Proof.
  intros Hh Hq. unfold copy. rewrite Hh, Hq.
  rewrite run_bind, copy_project_id_run.
  destruct (match cp_project_id a with
            | Some p => ([], (self, Some p))
            | None => _
            end) as [tr [self' pid]] eqn:E.
  exists tr, self', pid. eexists. split; [reflexivity|].
  cbn. rewrite app_nil_r. split; [reflexivity|]. cbn. done.
Qed.

Lemma project_id_keeps w self :
  region (run w (project_id self)).2.1 = region self
  ∧ access_token (run w (project_id self)).2.1 = access_token self
  ∧ credentials (run w (project_id self)).2.1 = credentials self
  ∧ base_url (run w (project_id self)).2.1 = base_url self.
Proof. rewrite project_id_run. by destruct (project_id_cache self). Qed.

(** X24.  [copy] refuses [default_headers] together with [set_default_headers],
    and [default_query] together with [set_default_query], with a
    [ValueError] that names the pair (the headers first when both pairs
    clash); it does so before it reads anything, and the client is
    untouched. *)
Theorem copy_exclusive_arguments w self base a :
  is_Some (cp_default_headers a) ∧ is_Some (cp_set_default_headers a)
  ∨ is_Some (cp_default_query a) ∧ is_Some (cp_set_default_query a) →
  run w (copy self base a)
  = ([], (self,
          inl (ValueError
                 (match cp_default_headers a, cp_set_default_headers a with
                  | Some _, Some _ =>
                      "The `default_headers` and `set_default_headers` arguments are mutually exclusive"
                  | _, _ =>
                      "The `default_query` and `set_default_query` arguments are mutually exclusive"
                  end)))).
Proof.
  intros H. unfold copy.
  destruct (cp_default_headers a) as [dh|], (cp_set_default_headers a) as [sh|];
    try reflexivity;
    destruct H as [[[? ?] [? ?]] | [[? ->] [? ->]]]; try done; reflexivity.
Qed.

(** X25.  When [copy] gets as far as a new client, it has called the
    constructor with a region (the given one or the original's) and with
    a base URL, so that the constructor looks for neither in the
    environment: the only variable read on the way is the project id's,
    and only when no project id is given and none is cached. *)
Theorem copy_reads_only_project_id w self base a tr self' kw new :
  run w (copy self base a) = (tr, (self', inr (kw, new))) →
  arg_region (kw_adapter kw) = Some (default (region self) (cp_region a))
  ∧ is_Some (arg_base_url (kw_adapter kw))
  ∧ region new = default (region self) (cp_region a)
  ∧ tr = match cp_project_id a, project_id_cache self with
         | None, None => [EvEnv "ANTHROPIC_VERTEX_PROJECT_ID"]
         | _, _ => []
         end.
Proof.
  intros Hrun. unfold copy in Hrun.
  destruct (both_given (cp_default_headers a) (cp_set_default_headers a)); [done|].
  destruct (both_given (cp_default_query a) (cp_set_default_query a)); [done|].
  rewrite run_bind, copy_project_id_run in Hrun.
  destruct (project_id_keeps w self) as (Hr & _).
  rewrite project_id_run in Hrun, Hr.
  destruct (cp_project_id a) as [p|].
  - cbn in Hrun. injection Hrun as <- <- <- <-. cbn.
    repeat split; eauto.
  - destruct (project_id_cache self) as [v|]; cbn in Hrun, Hr;
      injection Hrun as <- <- <- <-; cbn; repeat split; eauto.
Qed.

(** X26.  A static access token survives [copy]: the new client has the token
    given to [copy] if that is a non-empty string and the original's
    otherwise, so [copy] can replace a token but not remove it, and the
    new client, like the original, answers [_ensure_access_token] without
    asking anyone. *)
Theorem copy_keeps_static_token w self base a tr self' kw new tok w2 :
  run w (copy self base a) = (tr, (self', inr (kw, new))) →
  access_token self = Some tok →
  ∃ tok',
    access_token new = Some tok' ∧
    (cp_access_token a = Some tok' ∧ tok' ≠ ""
     ∨ tok' = tok ∧ str_truthy (cp_access_token a) = false) ∧
    run w2 (_ensure_access_token new) = ([], (new, inr tok')).
Proof.
  intros Hrun Htok.
  destruct (both_given (cp_default_headers a) (cp_set_default_headers a)) eqn:Hh.
  { unfold copy in Hrun. by rewrite Hh in Hrun. }
  destruct (both_given (cp_default_query a) (cp_set_default_query a)) eqn:Hq.
  { unfold copy in Hrun. by rewrite Hh, Hq in Hrun. }
  destruct (copy_run w self base a Hh Hq) as (tr1 & self1 & pid & kw1 & E & Hrun1 & _).
  rewrite Hrun1 in Hrun. injection Hrun as <- <- <- <-.
  assert (Ha : access_token self1 = Some tok).
  { destruct (project_id_keeps w self) as (_ & Ha & _).
    destruct (cp_project_id a); injection E as _ <- _; [done|by rewrite Ha]. }
  assert (Hstatic : ∀ s t, access_token s = Some t →
                           run w2 (_ensure_access_token s) = ([], (s, inr t))).
  { intros s t Hs. unfold _ensure_access_token. by rewrite Hs. }
  destruct (str_truthy (cp_access_token a)) eqn:Hgiven.
  - destruct (cp_access_token a) as [t|] eqn:Hcp; [|done].
    exists t. split; [done|]. split.
    + left. split; [done|]. intros ->. done.
    + by apply Hstatic.
  - exists tok. split; [done|]. split; [by right|].
    by apply Hstatic.
Qed.

(** X27.  The project id of the copy: the one given to [copy]; or else the
    original's, if it has a non-empty one (explicit, adopted or from the
    environment); or else none, to be resolved by the copy on its own. *)
Theorem copy_project_id w self base a tr self' kw new :
  run w (copy self base a) = (tr, (self', inr (kw, new))) →
  project_id_cache new
  = match cp_project_id a with
    | Some p => Some (Some p)
    | None =>
        match (run w (project_id self)).2.2 with
        | Some p => if negb (p =? "")%string then Some (Some p) else None
        | None => None
        end
    end.
Proof.
  intros Hrun.
  destruct (both_given (cp_default_headers a) (cp_set_default_headers a)) eqn:Hh.
  { unfold copy in Hrun. by rewrite Hh in Hrun. }
  destruct (both_given (cp_default_query a) (cp_set_default_query a)) eqn:Hq.
  { unfold copy in Hrun. by rewrite Hh, Hq in Hrun. }
  destruct (copy_run w self base a Hh Hq) as (tr1 & self1 & pid & kw1 & E & Hrun1 & _).
  rewrite Hrun1 in Hrun. injection Hrun as <- <- <- <-. cbn.
  destruct (cp_project_id a) as [p|]; injection E as _ _ <-; [done|].
  destruct ((run w (project_id self)).2.2) as [p|]; [|done].
  cbn. by destruct (negb (p =? "")).
Qed.

(** X28.  The default headers and the default query of the copy.  With
    [default_headers] the given entries are laid over those of the
    original; with [set_default_headers] they replace them; with neither
    the original's are passed on.  The query parameters go the same
    way. *)
Theorem copy_headers_and_query w self base a tr self' kw new k :
  run w (copy self base a) = (tr, (self', inr (kw, new))) →
  kw_default_headers kw !! k
  = match cp_default_headers a, cp_set_default_headers a with
    | Some dh, _ =>
        match dh !! k with
        | Some v => Some v
        | None => _custom_headers base !! k
        end
    | None, Some sh => sh !! k
    | None, None => _custom_headers base !! k
    end
  ∧ kw_default_query kw !! k
    = match cp_default_query a, cp_set_default_query a with
      | Some dq, _ =>
          match dq !! k with
          | Some v => Some v
          | None => _custom_query base !! k
          end
      | None, Some sq => sq !! k
      | None, None => _custom_query base !! k
      end.
Proof.
  intros Hrun.
  destruct (both_given (cp_default_headers a) (cp_set_default_headers a)) eqn:Hh.
  { unfold copy in Hrun. by rewrite Hh in Hrun. }
  destruct (both_given (cp_default_query a) (cp_set_default_query a)) eqn:Hq.
  { unfold copy in Hrun. by rewrite Hh, Hq in Hrun. }
  destruct (copy_run w self base a Hh Hq)
    as (tr1 & self1 & pid & kw1 & E & Hrun1 & Hhd & Hqr & _).
  rewrite Hrun1 in Hrun. injection Hrun as <- <- <- <-.
  rewrite Hhd, Hqr. split.
  - destruct (cp_default_headers a) as [dh|];
      [|by destruct (cp_set_default_headers a)].
    rewrite lookup_union. destruct (dh !! k), (_custom_headers base !! k); done.
  - destruct (cp_default_query a) as [dq|];
      [|by destruct (cp_set_default_query a)].
    rewrite lookup_union. destruct (dq !! k), (_custom_query base !! k); done.
Qed.

(** X29.  [copy()] without arguments reproduces the client: same region,
    access token, handle and base URL, and the base client's headers,
    query, timeout, retries and [httpx] client are passed on unchanged. *)
Theorem copy_without_arguments w self base tr self' kw new :
  run w (copy self base (mkCopyArgs None None None None None None None None None None None None))
  = (tr, (self', inr (kw, new))) →
  region new = region self ∧ access_token new = access_token self
  ∧ credentials new = credentials self ∧ base_url new = base_url self
  ∧ kw_default_headers kw = _custom_headers base
  ∧ kw_default_query kw = _custom_query base
  ∧ kw_timeout kw = timeout base ∧ kw_max_retries kw = max_retries base
  ∧ kw_http_client kw = _client base.
Proof.
  intros Hrun. set (a := mkCopyArgs _ _ _ _ _ _ _ _ _ _ _ _) in *.
  destruct (copy_run w self base a eq_refl eq_refl)
    as (tr1 & self1 & pid & kw1 & E & Hrun1 & Hhd & Hqr & Hto & Hmr & Hcl).
  rewrite Hrun1 in Hrun. injection Hrun as <- <- <- <-.
  destruct (project_id_keeps w self) as (H1 & H2 & H3 & H4).
  cbn in E. injection E as _ <- _. cbn. by rewrite H1, H2, H3, H4.
Qed.

End CopyProps.

Lemma copy_exclusive_arguments_witness :
  run gcloud
    (copy (mkClient "us-central1" None (Some "static") None "https://example.test/v1")
       plain_base
       (mkCopyArgs None None None None None None None None (Some ∅) (Some ∅) None None))
  = ([], (mkClient "us-central1" None (Some "static") None "https://example.test/v1",
          inl (ValueError
                 "The `default_headers` and `set_default_headers` arguments are mutually exclusive"))).
Proof.
  apply (copy_exclusive_arguments gcloud
           (mkClient "us-central1" None (Some "static") None "https://example.test/v1")
           plain_base
           (mkCopyArgs None None None None None None None None (Some ∅) (Some ∅) None None)).
  left. split; eexists; reflexivity.
Defined.

Lemma copy_reads_only_project_id_witness :
  arg_region
    (kw_adapter
       (mkKwargs (mkArgs (Some "europe-west1") None (Some "static") None
                    (Some "https://example.test/v1")) tt tt 2%Z ∅ ∅))
  = Some "europe-west1"
  ∧ is_Some
      (arg_base_url
         (kw_adapter
            (mkKwargs (mkArgs (Some "europe-west1") None (Some "static") None
                         (Some "https://example.test/v1")) tt tt 2%Z ∅ ∅)))
  ∧ region (mkClient "europe-west1" None (Some "static") None "https://example.test/v1")
    = "europe-west1"
  ∧ [EvEnv "ANTHROPIC_VERTEX_PROJECT_ID"] = [EvEnv "ANTHROPIC_VERTEX_PROJECT_ID"].
Proof.
  refine (copy_reads_only_project_id gcloud
            (mkClient "us-central1" None (Some "static") None "https://example.test/v1")
            plain_base
            (mkCopyArgs (Some "europe-west1") None None None None None None None
               None None None None)
            [EvEnv "ANTHROPIC_VERTEX_PROJECT_ID"]
            (mkClient "us-central1" (Some None) (Some "static") None
               "https://example.test/v1")
            (mkKwargs (mkArgs (Some "europe-west1") None (Some "static") None
                         (Some "https://example.test/v1")) tt tt 2%Z ∅ ∅)
            (mkClient "europe-west1" None (Some "static") None "https://example.test/v1")
            _).
  reflexivity.
Defined.

Lemma copy_keeps_static_token_witness :
  ∃ tok',
    access_token
      (mkClient "us-central1" None (Some "static") None "https://example.test/v1")
    = Some tok' ∧
    ((Some "" : option string) = Some tok' ∧ tok' ≠ ""
     ∨ tok' = "static" ∧ str_truthy (Some "") = false) ∧
    run gcloud
      (_ensure_access_token
         (mkClient "us-central1" None (Some "static") None "https://example.test/v1"))
    = ([], (mkClient "us-central1" None (Some "static") None "https://example.test/v1",
            inr tok')).
Proof.
  apply (copy_keeps_static_token gcloud
           (mkClient "us-central1" (Some None) (Some "static") None "https://example.test/v1")
           plain_base
           (mkCopyArgs None None (Some "") None None None None None None None None None)
           []
           (mkClient "us-central1" (Some None) (Some "static") None "https://example.test/v1")
           (mkKwargs (mkArgs (Some "us-central1") None (Some "static") None
                        (Some "https://example.test/v1")) tt tt 2%Z ∅ ∅)
           (mkClient "us-central1" None (Some "static") None "https://example.test/v1")
           "static" gcloud).
  - reflexivity.
  - reflexivity.
Defined.

Lemma copy_project_id_witness :
  project_id_cache
    (mkClient "us-central1" (Some (Some "env-project")) None None "https://example.test/v1")
  = Some (Some "env-project").
Proof.
  apply (copy_project_id
           (mkWorld (λ _, Some "env-project") (on_load gcloud) (on_refresh gcloud))
           (mkClient "us-central1" None None None "https://example.test/v1")
           plain_base no_copy_args
           [EvEnv "ANTHROPIC_VERTEX_PROJECT_ID"]
           (mkClient "us-central1" (Some (Some "env-project")) None None
              "https://example.test/v1")
           (mkKwargs (mkArgs (Some "us-central1") (Some "env-project") None None
                        (Some "https://example.test/v1")) tt tt 2%Z ∅ ∅)).
  reflexivity.
Defined.

Lemma copy_headers_and_query_witness :
  (<["x-team" := "b"]> ∅ ∪ <["x-team" := "a"]> (<["x-env" := "prod"]> ∅)
     : gmap string string) !! "x-team"
  = Some "b"
  ∧ (∅ : gmap string json) !! "x-team" = None.
Proof.
  refine (copy_headers_and_query gcloud
           (mkClient "us-central1" (Some None) None None "https://example.test/v1")
           (mkBase (<["x-team" := "a"]> (<["x-env" := "prod"]> ∅)) ∅ tt 2%Z tt)
           (mkCopyArgs None None None None None None None None
              (Some (<["x-team" := "b"]> ∅)) None None None)
           []
           (mkClient "us-central1" (Some None) None None "https://example.test/v1")
           (mkKwargs (mkArgs (Some "us-central1") None None None
                        (Some "https://example.test/v1")) tt tt 2%Z
              (<["x-team" := "b"]> ∅ ∪ <["x-team" := "a"]> (<["x-env" := "prod"]> ∅)) ∅)
           (mkClient "us-central1" None None None "https://example.test/v1")
           "x-team" _).
  reflexivity.
Defined.

Lemma copy_without_arguments_witness :
  region (mkClient "us-central1" None (Some "static") None "https://example.test/v1")
  = "us-central1"
  ∧ access_token (mkClient "us-central1" None (Some "static") None "https://example.test/v1")
    = Some "static"
  ∧ credentials (mkClient "us-central1" None (Some "static") None "https://example.test/v1")
    = None
  ∧ base_url (mkClient "us-central1" None (Some "static") None "https://example.test/v1")
    = "https://example.test/v1"
  ∧ kw_default_headers
      (mkKwargs (mkArgs (Some "us-central1") None (Some "static") None
                   (Some "https://example.test/v1")) tt tt 2%Z ∅ ∅) = ∅
  ∧ kw_default_query
      (mkKwargs (mkArgs (Some "us-central1") None (Some "static") None
                   (Some "https://example.test/v1")) tt tt 2%Z ∅ ∅) = ∅
  ∧ kw_timeout
      (mkKwargs (mkArgs (Some "us-central1") None (Some "static") None
                   (Some "https://example.test/v1")) tt tt 2%Z ∅ ∅) = tt
  ∧ kw_max_retries
      (mkKwargs (mkArgs (Some "us-central1") None (Some "static") None
                   (Some "https://example.test/v1")) tt tt 2%Z ∅ ∅) = 2%Z
  ∧ kw_http_client
      (mkKwargs (mkArgs (Some "us-central1") None (Some "static") None
                   (Some "https://example.test/v1")) tt tt 2%Z ∅ ∅) = tt.
Proof.
  apply (copy_without_arguments gcloud
           (mkClient "us-central1" (Some None) (Some "static") None "https://example.test/v1")
           plain_base []
           (mkClient "us-central1" (Some None) (Some "static") None "https://example.test/v1")).
  reflexivity.
Defined.

End ClientProps.

(** * Further properties of the status classification *)

Module StatusCases.
Import Json Status.

(** X30.  The class of a status error follows the range of the code: it is one
    of the three server classes ([ServiceUnavailableError],
    [DeadlineExceededError], [InternalServerError]) exactly for the codes
    from 500 upwards, and one of the seven client classes only for a code
    between 400 and 499; so no 5xx response is reported as a client error
    or as a plain [APIStatusError]. *)
Theorem error_class_follows_range err_msg body response :
  (error_type (_make_status_error err_msg body response)
     ∈ [ServiceUnavailableError; DeadlineExceededError; InternalServerError]
   ↔ (500 ≤ status_code response)%Z)
  ∧ (error_type (_make_status_error err_msg body response)
       ∈ [BadRequestError; AuthenticationError; PermissionDeniedError; NotFoundError;
          ConflictError; UnprocessableEntityError; RateLimitError]
     → (400 ≤ status_code response < 500)%Z).
Proof.
  destruct response as [code]. unfold _make_status_error. cbn [status_code].
  repeat match goal with
         | |- context [(code =? ?k)%Z] =>
             destruct (Z.eqb_spec code k) as [-> | ?]
         end;
    try destruct (Z.geb_spec code 500);
    cbn [error_type];
    (split; [split|]); intros Hin; try lia; try (by repeat constructor);
    exfalso;
    repeat (apply elem_of_cons in Hin; destruct Hin as [Hin | Hin]; [discriminate Hin|]);
    by apply elem_of_nil in Hin.
Qed.

End StatusCases.
